(** * ChemyxPump: a shallow embedding of [controller.py]

    The development follows the Python class [ChemyxPump] method by method.
    Python values are embedded as follows.

    - [str] is [string]; a character is a code point below 256.
    - [float] is the kernel's binary64 [float]; every arithmetic operation and
      comparison is the IEEE 754 one. The texts of a float ([repr], the
      [.4f] format) and the reading of a text ([float(s)]) are computed from
      the exact value of the float.
    - The dictionary [UNIT_CONVERSIONS] is a [gmap] keyed by the unit code.
    - A raised exception is the [Raise] case of [result]; [try]/[except] is a
      match on it.
    - The serial port is an explicit state: what was written, what waits in the
      input buffer, and a script of what the device answers to each write.

    What the methods [print] and how long they [sleep] is left out: neither
    is seen by the caller or by the device. *)

From Stdlib Require Import ZArith Ascii String List Bool Lia Floats.
From stdpp Require Import base option list strings gmap.

Local Open Scope string_scope.
Local Open Scope Z_scope.

#[local] Set Warnings "-inexact-float".

(** ** Python [str] methods *)

Module PyStr.

(** The carriage return that terminates a command line. *)
Definition CR : string := String "013"%char EmptyString.

(** [str.isspace] on one character: TAB..CR, FS..US, space, NEL, NBSP. *)
Definition isspace (c : ascii) : bool :=
  let n := Z.of_N (N_of_ascii c) in
  ((9 <=? n) && (n <=? 13)) || ((28 <=? n) && (n <=? 32))
  || (n =? 133) || (n =? 160).

Definition is_empty (s : string) : bool :=
  match s with EmptyString => true | String _ _ => false end.

(** Truthiness of a [str]: the empty string is false. *)
Definition truthy (s : string) : bool := negb (is_empty s).

Fixpoint lstrip (s : string) : string :=
  match s with
  | EmptyString => EmptyString
  | String c s' => if isspace c then lstrip s' else s
  end.

Fixpoint rstrip (s : string) : string :=
  match s with
  | EmptyString => EmptyString
  | String c s' =>
      let r := rstrip s' in
      if is_empty r && isspace c then EmptyString else String c r
  end.

(** [s.strip()] *)
Definition strip (s : string) : string := rstrip (lstrip s).

(** [s.startswith(p)] *)
Definition startswith (s p : string) : bool := String.prefix p s.

(** [s.endswith(p)] *)
Definition endswith (s p : string) : bool :=
  String.prefix (String.rev p) (String.rev s).

(** [s.split()]: the maximal runs of non-space characters. [word] is the run
    being read. *)
Fixpoint split_go (s word : string) : list string :=
  match s with
  | EmptyString => if is_empty word then [] else [word]
  | String c s' =>
      if isspace c
      then (if is_empty word then split_go s' EmptyString
            else word :: split_go s' EmptyString)
      else split_go s' (word +:+ String c EmptyString)
  end.

Definition split (s : string) : list string := split_go s EmptyString.

(** [c.lower()] on the ASCII letters and the Latin-1 capitals. *)
Definition lower_char (c : ascii) : ascii :=
  let n := Z.of_N (N_of_ascii c) in
  if ((65 <=? n) && (n <=? 90))
     || ((192 <=? n) && (n <=? 222) && negb (n =? 215))
  then ascii_of_N (Z.to_N (n + 32)) else c.

Fixpoint lower (s : string) : string :=
  match s with
  | EmptyString => EmptyString
  | String c s' => String (lower_char c) (lower s')
  end.

Fixpoint remove_spaces (s : string) : string :=
  match s with
  | EmptyString => EmptyString
  | String c s' =>
      if isspace c then remove_spaces s' else String c (remove_spaces s')
  end.

(** [sep.join(l)] with an empty separator. *)
Definition concat (l : list string) : string :=
  fold_right String.append EmptyString l.

End PyStr.

(** ** Python [float]: formatting and reading *)

Module PyFloat.

(** Quotient of [num / den] rounded to the nearest integer, ties to even
    ([den > 0], [num >= 0]). *)
Definition div_half_even (num den : Z) : Z :=
  let q := num / den in
  let r := num mod den in
  match 2 * r ?= den with
  | Lt => q
  | Gt => q + 1
  | Eq => if Z.even q then q else q + 1
  end.

(** The decimal digit [d] (0..9) as a character. *)
Definition digit_char (d : Z) : ascii := ascii_of_N (Z.to_N (48 + d)).

(** Decimal digits of a non-negative integer, most significant first. *)
Fixpoint digits_go (fuel : nat) (n : Z) (acc : string) : string :=
  match fuel with
  | O => acc
  | S fuel' =>
      let acc' := String (digit_char (n mod 10)) acc in
      if n <? 10 then acc' else digits_go fuel' (n / 10) acc'
  end.

Definition digits (n : Z) : string :=
  digits_go (S (Z.to_nat (Z.log2 n))) n EmptyString.

(** [n] as exactly four digits, for [0 <= n < 10000]. *)
Definition pad4 (n : Z) : string :=
  String (digit_char (n / 1000 mod 10))
    (String (digit_char (n / 100 mod 10))
       (String (digit_char (n / 10 mod 10))
          (String (digit_char (n mod 10)) EmptyString))).

Definition sign_text (s : bool) : string := if s then "-" else "".

(** The integer nearest to [m * 2^e * 10^4], ties to even. *)
Definition scaled4 (m : positive) (e : Z) : Z :=
  if 0 <=? e then Z.pos m * 2 ^ e * 10000
  else div_half_even (Z.pos m * 10000) (2 ^ (- e)).

Definition fixed4 (s : bool) (n : Z) : string :=
  sign_text s +:+ digits (n / 10000) +:+ "." +:+ pad4 (n mod 10000).

(** ["{:.4f}".format(x)] *)
Definition format_4f (x : float) : string :=
  match Prim2SF x with
  | S754_nan => "nan"
  | S754_infinity s => sign_text s +:+ "inf"
  | S754_zero s => fixed4 s 0
  | S754_finite s m e => fixed4 s (scaled4 m e)
  end.


(** ** [repr(x)]: the shortest decimal text that reads back as [x] *)

(** A positive rational [qn / qd], both positive. *)
Definition ratio (m : positive) (e : Z) : Z * Z :=
  if 0 <=? e then (Z.pos m * 2 ^ e, 1) else (Z.pos m, 2 ^ (- e)).

(** [n * 10^q] as a ratio. *)
Definition dec_ratio (n q : Z) : Z * Z :=
  if 0 <=? q then (n * 10 ^ q, 1) else (n, 10 ^ (- q)).

Definition ratio_compare (a b : Z * Z) : comparison :=
  (fst a * snd b ?= fst b * snd a).

Definition ratio_sub (a b : Z * Z) : Z * Z :=
  (fst a * snd b - fst b * snd a, snd a * snd b).

(** The midpoints between the float [m * 2^e] (as [Prim2SF] gives it) and
    its two neighbours: every real strictly between them rounds to it, and a
    midpoint does when [m] is even. *)
Definition lower_mid (m : positive) (e : Z) : Z * Z :=
  if (Z.pos m =? 2 ^ 52) && (-1074 <? e)
  then ratio (4 * m - 1) (e - 2) else ratio (2 * m - 1) (e - 1).

Definition upper_mid (m : positive) (e : Z) : Z * Z :=
  ratio (2 * m + 1) (e - 1).

Definition reads_back (m : positive) (e : Z) (d : Z * Z) : bool :=
  let even := Z.even (Z.pos m) in
  match ratio_compare (lower_mid m e) d, ratio_compare d (upper_mid m e) with
  | Lt, Lt => true
  | Eq, Lt | Lt, Eq => even
  | _, _ => false
  end.

(** The decimal exponent [k] of a positive ratio: [10^k <= x < 10^(k+1)].
    The search starts from an estimate that is at most [k]. *)
Fixpoint exp10_up (fuel : nat) (x : Z * Z) (k : Z) : Z :=
  match fuel with
  | O => k
  | S fuel' =>
      match ratio_compare x (dec_ratio 1 (k + 1)) with
      | Lt => k
      | _ => exp10_up fuel' x (k + 1)
      end
  end.

Definition exp10 (x : Z * Z) : Z :=
  let guess := (Z.log2 (fst x) - Z.log2 (snd x) - 1) * 30103 / 100000 - 1 in
  exp10_up 8 x guess.

(** [floor (x / 10^q)] *)
Definition floor_scaled (x : Z * Z) (q : Z) : Z :=
  if 0 <=? q then fst x / (snd x * 10 ^ q) else (fst x * 10 ^ (- q)) / snd x.

(** The best decimal with [p] significant digits that reads back as the
    float, if there is one: the nearer of the two [p]-digit neighbours of
    [x], ties to the even one. The result is [(n, q)], meaning [n * 10^q]. *)
Definition candidate (m : positive) (e : Z) (k p : Z) : option (Z * Z) :=
  let x := ratio m e in
  let q := k - p + 1 in
  let lo := floor_scaled x q in
  let hi := lo + 1 in
  let ok_lo := reads_back m e (dec_ratio lo q) in
  let ok_hi := reads_back m e (dec_ratio hi q) in
  match ok_lo, ok_hi with
  | false, false => None
  | true, false => Some (lo, q)
  | false, true => Some (hi, q)
  | true, true =>
      match ratio_compare (ratio_sub x (dec_ratio lo q))
                          (ratio_sub (dec_ratio hi q) x) with
      | Lt => Some (lo, q)
      | Gt => Some (hi, q)
      | Eq => if Z.even lo then Some (lo, q) else Some (hi, q)
      end
  end.

Fixpoint shortest_go (fuel : nat) (m : positive) (e : Z) (k p : Z) : Z * Z :=
  match fuel with
  | O => (floor_scaled (ratio m e) (k - p + 1), k - p + 1)
  | S fuel' =>
      match candidate m e k p with
      | Some d => d
      | None => shortest_go fuel' m e k (p + 1)
      end
  end.

(** Drop the trailing zeros of [n], raising the exponent. *)
Fixpoint trim_zeros (fuel : nat) (n q : Z) : Z * Z :=
  match fuel with
  | O => (n, q)
  | S fuel' =>
      if (n mod 10 =? 0) && (0 <? n) then trim_zeros fuel' (n / 10) (q + 1)
      else (n, q)
  end.

Definition shortest (m : positive) (e : Z) : Z * Z :=
  let (n, q) := shortest_go 17 m e (exp10 (ratio m e)) 1 in
  trim_zeros 18 n q.

Definition zeros (n : Z) : string :=
  PyStr.concat (repeat "0"%string (Z.to_nat n)).

Definition take (n : Z) (s : string) : string := String.substring 0 (Z.to_nat n) s.
Definition drop (n : Z) (s : string) : string :=
  String.substring (Z.to_nat n) (String.length s - Z.to_nat n) s.

(** Layout of the digit string [ds] with the decimal point after [decpt]
    digits: positional when [-4 < decpt <= 16], else scientific. *)
Definition repr_layout (ds : string) (decpt : Z) : string :=
  let n := Z.of_nat (String.length ds) in
  if (-4 <? decpt) && (decpt <=? 16) then
    if decpt <=? 0 then "0." +:+ zeros (- decpt) +:+ ds
    else if n <=? decpt then ds +:+ zeros (decpt - n) +:+ ".0"
    else take decpt ds +:+ "." +:+ drop decpt ds
  else
    let x := decpt - 1 in
    let xs := digits (Z.abs x) in
    take 1 ds +:+ (if 1 <? n then "." +:+ drop 1 ds else "")
      +:+ "e" +:+ (if x <? 0 then "-" else "+")
      +:+ (if Z.abs x <? 10 then "0" else "") +:+ xs.

(** [repr(x)], which is also [str(x)] and what an f-string field [{x}]
    shows. *)
Definition float_repr (x : float) : string :=
  match Prim2SF x with
  | S754_nan => "nan"
  | S754_infinity s => sign_text s +:+ "inf"
  | S754_zero s => sign_text s +:+ "0.0"
  | S754_finite s m e =>
      let (n, q) := shortest m e in
      let ds := digits n in
      sign_text s +:+ repr_layout ds (Z.of_nat (String.length ds) + q)
  end.


(** ** [float(s)]: reading a decimal text as the nearest float *)

(** The float nearest to [num / den] (ties to even), with sign [s];
    [num >= 0], [den > 0]. *)
Definition nearest (s : bool) (num den : Z) : float :=
  if num =? 0 then SF2Prim (S754_zero s) else
  let e0 := Z.log2 num - Z.log2 den - 53 in
  let e1 := match ratio_compare (num, den) (ratio 1 (e0 + 53)) with
            | Lt => e0 | _ => e0 + 1 end in
  let e := Z.max e1 (-1074) in
  let q := if 0 <=? e then div_half_even num (den * 2 ^ e)
           else div_half_even (num * 2 ^ (- e)) den in
  let (q', e') := if q =? 2 ^ 53 then (2 ^ 52, e + 1) else (q, e) in
  match q' with
  | Z.pos m => if 971 <? e' then SF2Prim (S754_infinity s)
               else SF2Prim (S754_finite s m e')
  | _ => SF2Prim (S754_zero s)
  end.

Definition is_digit (c : ascii) : bool :=
  let n := Z.of_N (N_of_ascii c) in (48 <=? n) && (n <=? 57).

Definition digit_val (c : ascii) : Z := Z.of_N (N_of_ascii c) - 48.

(** The rest of a digit part, after its first digit: digits, each possibly
    preceded by one underscore. Returns the value, the number of digits and
    what is left. *)
Fixpoint digitpart_go (s : string) (acc cnt : Z) : Z * Z * string :=
  match s with
  | String c s' =>
      if is_digit c then digitpart_go s' (10 * acc + digit_val c) (cnt + 1)
      else if Ascii.eqb c "_" then
        match s' with
        | String c2 s'' =>
            if is_digit c2
            then digitpart_go s'' (10 * acc + digit_val c2) (cnt + 1)
            else (acc, cnt, s)
        | EmptyString => (acc, cnt, s)
        end
      else (acc, cnt, s)
  | EmptyString => (acc, cnt, s)
  end.

Definition digitpart (s : string) : option (Z * Z * string) :=
  match s with
  | String c s' =>
      if is_digit c then Some (digitpart_go s' (digit_val c) 1) else None
  | EmptyString => None
  end.

Definition read_sign (s : string) : bool * string :=
  match s with
  | String "-" s' => (true, s')
  | String "+" s' => (false, s')
  | _ => (false, s)
  end.

(** The mantissa: [digitpart ["." [digitpart]]] or ["." digitpart]. Returns
    the digits read as one integer, how many of them follow the point, and
    what is left. *)
Definition read_number (s : string) : option (Z * Z * string) :=
  match digitpart s with
  | Some (ip, _, r) =>
      match r with
      | String "." r' =>
          match digitpart r' with
          | Some (fp, fc, r'') => Some (ip * 10 ^ fc + fp, fc, r'')
          | None => Some (ip, 0, r')
          end
      | _ => Some (ip, 0, r)
      end
  | None =>
      match s with
      | String "." r' =>
          match digitpart r' with
          | Some (fp, fc, r'') => Some (fp, fc, r'')
          | None => None
          end
      | _ => None
      end
  end.

(** The exponent: nothing, or [e] or [E], a sign and a digit part. *)
Definition read_exponent (s : string) : option (Z * string) :=
  match s with
  | String c r =>
      if Ascii.eqb c "e" || Ascii.eqb c "E" then
        let (neg, r') := read_sign r in
        match digitpart r' with
        | Some (x, _, r'') => Some (if neg then - x else x, r'')
        | None => None
        end
      else Some (0, s)
  | EmptyString => Some (0, s)
  end.

(** [float(s)] on a [str]; [None] is [ValueError]. *)
Definition float_of_string (s : string) : option float :=
  let (neg, body) := read_sign (PyStr.strip s) in
  let word := PyStr.lower body in
  if String.eqb word "inf" || String.eqb word "infinity"
  then Some (SF2Prim (S754_infinity neg))
  else if String.eqb word "nan" then Some nan
  else
    match read_number body with
    | Some (n, fc, r) =>
        match read_exponent r with
        | Some (x, EmptyString) =>
            let (num, den) := dec_ratio n (x - fc) in Some (nearest neg num den)
        | _ => None
        end
    | None => None
    end.

End PyFloat.

(** [str(n)] for an [int]. *)
Definition int_str (n : Z) : string :=
  if n <? 0 then "-" +:+ PyFloat.digits (- n) else PyFloat.digits n.

(** A numeric argument: Python passes an [int] or a [float]. *)
Inductive pynum : Type :=
| PyInt (n : Z)
| PyFloat (x : float).

(** [str(v)], what an f-string field [{v}] shows. *)
Definition py_str (v : pynum) : string :=
  match v with
  | PyInt n => int_str n
  | PyFloat x => PyFloat.float_repr x
  end.

(** ** Exceptions *)

Inductive exn : Type :=
| SerialException (msg : string)
| UnicodeDecodeError (msg : string)
| ValueError (msg : string)
| KeyError (key : Z).

(** [str(e)] *)
Definition exn_str (e : exn) : string :=
  match e with
  | SerialException msg | UnicodeDecodeError msg | ValueError msg => msg
  | KeyError key => int_str key
  end.

(** [isinstance(e, ValueError)]; [UnicodeDecodeError] is a subclass. *)
Definition is_ValueError (e : exn) : bool :=
  match e with
  | ValueError _ | UnicodeDecodeError _ => true
  | _ => false
  end.

Inductive result (A : Type) : Type :=
| Ok (a : A)
| Raise (e : exn).
Arguments Ok {A} a.
Arguments Raise {A} e.

(** ** The serial port

    The port object of [pyserial] is modelled by its observable state. What
    the device sends is scripted: each [write] takes the next [reply] of the
    script and puts its [ready] items in the input buffer; its [late] item is
    what one blocking [readline] finds when the buffer is empty. *)

(** One read from the port: a decoded line, or the exception that
    [readline().decode()] raises. *)
Inductive rx_item : Type :=
| RxLine (raw : string)
| RxFault (e : exn).

Record reply : Type := {
  ready : list rx_item;
  late : rx_item
}.

Inductive port_op : Type :=
| OpResetInput | OpResetOutput | OpWrite | OpFlush | OpInWaiting.

Record Serial : Type := {
  is_open : bool;
  wire : list string;
  in_buffer : list rx_item;
  late_line : rx_item;
  script : list reply;
  faults : port_op -> option string
}.

(** The timeout of a blocking read: no bytes. *)
Definition timed_out : rx_item := RxLine EmptyString.

(** A computation on the port: it may raise, and the port keeps what
    happened before. *)
Definition io (A : Type) : Type := Serial -> result A * Serial.

Definition io_ret {A} (a : A) : io A := fun s => (Ok a, s).

Definition io_bind {A B} (m : io A) (k : A -> io B) : io B :=
  fun s =>
    match m s with
    | (Ok a, s') => k a s'
    | (Raise e, s') => (Raise e, s')
    end.

Notation "x <- m ;; k" := (io_bind m (fun x => k))
  (at level 60, m at next level, right associativity).
Notation "m ;;; k" := (io_bind m (fun _ => k))
  (at level 60, right associativity).

(** An operation that fails when the port is faulty for it. *)
Definition guarded {A} (op : port_op) (body : io A) : io A :=
  fun s =>
    match faults s op with
    | Some cause => (Raise (SerialException cause), s)
    | None => body s
    end.

Definition with_in_buffer (s : Serial) (b : list rx_item) : Serial :=
  {| is_open := is_open s; wire := wire s; in_buffer := b;
     late_line := late_line s; script := script s; faults := faults s |}.

Definition with_late_line (s : Serial) (l : rx_item) : Serial :=
  {| is_open := is_open s; wire := wire s; in_buffer := in_buffer s;
     late_line := l; script := script s; faults := faults s |}.

Definition with_is_open (s : Serial) (b : bool) : Serial :=
  {| is_open := b; wire := wire s; in_buffer := in_buffer s;
     late_line := late_line s; script := script s; faults := faults s |}.

(** [reset_input_buffer()] *)
Definition reset_input_buffer : io unit :=
  guarded OpResetInput (fun s => (Ok tt, with_in_buffer s [])).

(** [reset_output_buffer()] *)
Definition reset_output_buffer : io unit :=
  guarded OpResetOutput (fun s => (Ok tt, s)).

(** [write(data)]: the data goes on the wire and the device's next reply
    starts to arrive. *)
Definition write (data : string) : io unit :=
  guarded OpWrite (fun s =>
    match script s with
    | [] =>
        (Ok tt,
         {| is_open := is_open s; wire := (wire s ++ [data])%list;
            in_buffer := in_buffer s; late_line := timed_out;
            script := []; faults := faults s |})
    | r :: rest =>
        (Ok tt,
         {| is_open := is_open s; wire := (wire s ++ [data])%list;
            in_buffer := (in_buffer s ++ ready r)%list; late_line := late r;
            script := rest; faults := faults s |})
    end).

(** [flush()] *)
Definition flush : io unit := guarded OpFlush (fun s => (Ok tt, s)).

(** [in_waiting]: non-zero as long as an item is pending. *)
Definition in_waiting : io Z :=
  guarded OpInWaiting (fun s => (Ok (Z.of_nat (length (in_buffer s))), s)).

(** [readline().decode()]: the next pending item, or the late line when
    nothing is pending. *)
Definition readline : io string :=
  fun s =>
    match in_buffer s with
    | RxLine raw :: rest => (Ok raw, with_in_buffer s rest)
    | RxFault e :: rest => (Raise e, with_in_buffer s rest)
    | [] =>
        match late_line s with
        | RxLine raw => (Ok raw, with_late_line s timed_out)
        | RxFault e => (Raise e, with_late_line s timed_out)
        end
    end.

(** [close()] *)
Definition close (s : Serial) : Serial := with_is_open s false.

(** ** The pump object *)

Record unit_info : Type := {
  name : string;
  factor : float
}.

(** [self.UNIT_CONVERSIONS]; the factors are the floats that the Python
    expressions [1.0], [1/60.0], [0.001] and [0.001/60] evaluate to. The
    letter mu of the last two names is outside Latin-1 and appears as its
    UTF-8 bytes; the names are only ever copied into messages. *)
Definition UNIT_CONVERSIONS : gmap Z unit_info :=
  {[ 0 := {| name := "mL/min"; factor := 1%float |};
     1 := {| name := "mL/hr"; factor := (1 / 60)%float |};
     2 := {| name := "μL/min"; factor := 0.001%float |};
     3 := {| name := "μL/hr"; factor := (0.001 / 60)%float |} ]}.

Record ChemyxPump : Type := {
  port : string;
  baudrate : Z;
  connection : option Serial;
  min_rate : option float;
  max_rate : option float;
  min_volume : option float;
  max_volume : option float;
  current_units : Z
}.

(** [ChemyxPump(port, baudrate)] *)
Definition init (port : string) (baudrate : Z) : ChemyxPump :=
  {| port := port; baudrate := baudrate; connection := None;
     min_rate := None; max_rate := None;
     min_volume := None; max_volume := None;
     current_units := 0 |}.

Definition with_connection (p : ChemyxPump) (c : option Serial) : ChemyxPump :=
  {| port := port p; baudrate := baudrate p; connection := c;
     min_rate := min_rate p; max_rate := max_rate p;
     min_volume := min_volume p; max_volume := max_volume p;
     current_units := current_units p |}.

Definition with_min_rate (p : ChemyxPump) (v : option float) : ChemyxPump :=
  {| port := port p; baudrate := baudrate p; connection := connection p;
     min_rate := v; max_rate := max_rate p;
     min_volume := min_volume p; max_volume := max_volume p;
     current_units := current_units p |}.

Definition with_max_rate (p : ChemyxPump) (v : option float) : ChemyxPump :=
  {| port := port p; baudrate := baudrate p; connection := connection p;
     min_rate := min_rate p; max_rate := v;
     min_volume := min_volume p; max_volume := max_volume p;
     current_units := current_units p |}.

Definition with_min_volume (p : ChemyxPump) (v : option float) : ChemyxPump :=
  {| port := port p; baudrate := baudrate p; connection := connection p;
     min_rate := min_rate p; max_rate := max_rate p;
     min_volume := v; max_volume := max_volume p;
     current_units := current_units p |}.

Definition with_max_volume (p : ChemyxPump) (v : option float) : ChemyxPump :=
  {| port := port p; baudrate := baudrate p; connection := connection p;
     min_rate := min_rate p; max_rate := max_rate p;
     min_volume := min_volume p; max_volume := v;
     current_units := current_units p |}.

Definition with_current_units (p : ChemyxPump) (u : Z) : ChemyxPump :=
  {| port := port p; baudrate := baudrate p; connection := connection p;
     min_rate := min_rate p; max_rate := max_rate p;
     min_volume := min_volume p; max_volume := max_volume p;
     current_units := u |}.

(** *** [send_command] *)

(** Lines 82-83: the carriage return is added unless already there. *)
Definition frame (command : string) : string :=
  if PyStr.endswith command PyStr.CR then command else command +:+ PyStr.CR.

(** Lines 94-98, the loop [while self.connection.in_waiting]. Every turn
    takes one item from the input buffer, so one turn more than there are
    items reaches the test that ends the loop; [fuel] counts the turns. *)
Fixpoint drain (fuel : nat) (responses : list string) : io (list string) :=
  match fuel with
  | O => io_ret responses
  | S fuel' =>
      n <- in_waiting ;;
      if n =? 0 then io_ret responses
      else
        raw <- readline ;;
        let response := PyStr.strip raw in
        if PyStr.truthy response
        then drain fuel' (responses ++ [response])%list
        else drain fuel' responses
  end.

Definition drain_all : io (list string) :=
  fun s => drain (S (length (in_buffer s))) [] s.

(** Lines 101-104: one more read when nothing was collected. *)
Definition read_once_more (responses : list string) : io (list string) :=
  match responses with
  | [] =>
      raw <- readline ;;
      let response := PyStr.strip raw in
      io_ret (if PyStr.truthy response then (responses ++ [response])%list
              else responses)
  | _ :: _ => io_ret responses
  end.

(** Line 109: the test that keeps a response. [command] is the framed
    command. *)
Definition keeps (command response : string) : bool :=
  negb (PyStr.startswith response ">")
  && negb (PyStr.startswith response (PyStr.strip command)).

(** Lines 107-110: the loop that leaves the last kept response in
    [final_response]. *)
Definition pick (command : string) (responses : list string) : option string :=
  fold_left
    (fun final_response response =>
       if keeps command response then Some response else final_response)
    responses None.

(** Lines 112-117: [if final_response:] is false for [None] and for the
    empty string. *)
Definition answer (final_response : option string) : string :=
  match final_response with
  | Some r => if PyStr.truthy r then r else "No response"
  | None => "No response"
  end.

(** Lines 78-117, the body of the [try]. *)
Definition exchange (command : string) : io string :=
  reset_input_buffer ;;;
  let command := frame command in
  write command ;;;
  flush ;;;
  responses <- drain_all ;;
  responses <- read_once_more responses ;;
  io_ret (answer (pick command responses)).

Definition send_command (command : string) (p : ChemyxPump)
  : string * ChemyxPump :=
  match connection p with
  | None => ("Error: Not connected to pump", p)
  | Some conn =>
      if negb (is_open conn) then ("Error: Not connected to pump", p)
      else
        match exchange command conn with
        | (Ok r, conn') => (r, with_connection p (Some conn'))
        | (Raise e, conn') =>
            ("Command failed: " +:+ exn_str e, with_connection p (Some conn'))
        end
  end.

(** *** Unit conversion *)

(** [self.UNIT_CONVERSIONS[u]]: a missing key raises [KeyError]. *)
Definition unit_entry (u : Z) : result unit_info :=
  match UNIT_CONVERSIONS !! u with
  | Some i => Ok i
  | None => Raise (KeyError u)
  end.

Definition convert_to_base_units (value : float) (from_units : Z)
  : result float :=
  match unit_entry from_units with
  | Ok i => Ok (value * factor i)%float
  | Raise e => Raise e
  end.

Definition convert_from_base_units (value : float) (to_units : Z)
  : result float :=
  match unit_entry to_units with
  | Ok i => Ok (value / factor i)%float
  | Raise e => Raise e
  end.

Definition get_current_units (p : ChemyxPump) : string :=
  match UNIT_CONVERSIONS !! current_units p with
  | Some i => name i
  | None => "unknown"
  end.

(** *** Setters *)

(** Line 135, the message of a rate outside the limits. *)
Definition rate_message (rate min_rate_curr max_rate_curr : float)
    (unit_name : string) : string :=
  "Rate " +:+ PyFloat.float_repr rate +:+ " is outside pump limits ("
    +:+ PyFloat.format_4f min_rate_curr +:+ " to "
    +:+ PyFloat.format_4f max_rate_curr +:+ " " +:+ unit_name +:+ ")".

(** Lines 129-135: [Some message] when the rate is refused. *)
Definition rate_refusal (rate rate_ml_min : float) (p : ChemyxPump)
  : result (option string) :=
  match min_rate p, max_rate p with
  | Some lo, Some hi =>
      if ((rate_ml_min <? lo) || (hi <? rate_ml_min))%float then
        match convert_from_base_units lo (current_units p),
              convert_from_base_units hi (current_units p),
              unit_entry (current_units p) with
        | Ok min_rate_curr, Ok max_rate_curr, Ok i =>
            Ok (Some (rate_message rate min_rate_curr max_rate_curr (name i)))
        | Raise e, _, _ | Ok _, Raise e, _ | Ok _, Ok _, Raise e => Raise e
        end
      else Ok None
  | _, _ => Ok None
  end.

(** [set_rate]. The handler [except ValueError] lets any other exception
    through. *)
Definition set_rate (rate : float) (p : ChemyxPump)
  : result string * ChemyxPump :=
  let body :=
    match convert_to_base_units rate (current_units p) with
    | Raise e => (Raise e, p)
    | Ok rate_ml_min =>
        match rate_refusal rate rate_ml_min p with
        | Raise e => (Raise e, p)
        | Ok (Some message) => (Ok message, p)
        | Ok None =>
            let formatted_rate := PyFloat.format_4f rate in
            let (r, p') := send_command ("set rate " +:+ formatted_rate) p in
            (Ok r, p')
        end
    end in
  match body with
  | (Raise e, p') =>
      if is_ValueError e then (Ok ("Invalid rate value: " +:+ exn_str e), p')
      else (Raise e, p')
  | ok => ok
  end.

(** Line 162, the message of a volume outside the limits. *)
Definition volume_message (vol lo hi : float) : string :=
  "Volume " +:+ PyFloat.float_repr (abs vol) +:+ " is outside pump limits ("
    +:+ PyFloat.float_repr lo +:+ " to " +:+ PyFloat.float_repr hi +:+ " mL)".

(** [set_volume]; nothing in the body raises. *)
Definition set_volume (volume : float) (mode : string) (p : ChemyxPump)
  : string * ChemyxPump :=
  let vol := abs volume in
  let vol := if String.eqb mode "withdrawal" then (- vol)%float else vol in
  let formatted_vol := PyFloat.format_4f vol in
  match min_volume p, max_volume p with
  | Some lo, Some hi =>
      if ((abs vol <? lo) || (hi <? abs vol))%float
      then (volume_message vol lo hi, p)
      else send_command ("set volume " +:+ formatted_vol) p
  | _, _ => send_command ("set volume " +:+ formatted_vol) p
  end.

Definition set_diameter (diameter : float) (p : ChemyxPump)
  : string * ChemyxPump :=
  send_command ("set diameter " +:+ PyFloat.float_repr diameter) p.

Definition start (p : ChemyxPump) : string * ChemyxPump :=
  send_command "start" p.

Definition stop (p : ChemyxPump) : string * ChemyxPump :=
  send_command "stop" p.

Definition get_status (p : ChemyxPump) : string * ChemyxPump :=
  send_command "status" p.

(** Line 205, the composite command. *)
Definition hexw2_command (diameter volume rate : float) (delay : pynum)
    (mode : string) (start_immediately : bool) : string :=
  let mode_val := if String.eqb mode "withdrawal" then 1 else 0 in
  let command :=
    "hexw2 0 " +:+ int_str mode_val +:+ " " +:+ PyFloat.float_repr diameter
      +:+ " " +:+ PyFloat.float_repr (abs volume)
      +:+ " " +:+ PyFloat.float_repr rate +:+ " " +:+ py_str delay in
  if start_immediately then command +:+ " start" else command.

Definition set_all_parameters (diameter volume rate : float) (delay : pynum)
    (mode : string) (start_immediately : bool) (p : ChemyxPump)
  : string * ChemyxPump :=
  send_command
    (hexw2_command diameter volume rate delay mode start_immediately) p.

Definition get_parameters (p : ChemyxPump) : string * ChemyxPump :=
  ("Use 'view <parameter>' to view specific parameters (e.g., 'view rate', 'view volume')",
   p).

(** [unit_code not in range(4)] *)
Definition in_range4 (unit_code : Z) : bool :=
  (0 <=? unit_code) && (unit_code <? 4).

Definition set_units (unit_code : Z) (p : ChemyxPump) : string * ChemyxPump :=
  if negb (in_range4 unit_code) then ("Error: Unit code must be 0-3", p)
  else
    let (response, p') := send_command ("set units " +:+ int_str unit_code) p in
    if negb (PyStr.startswith response "Error")
    then (response, with_current_units p' unit_code)
    else (response, p').

Definition set_time (time : float) (p : ChemyxPump) : string * ChemyxPump :=
  send_command ("set time " +:+ PyFloat.float_repr time) p.

Definition set_delay (delay : float) (p : ChemyxPump) : string * ChemyxPump :=
  send_command ("set delay " +:+ PyFloat.float_repr delay) p.

Definition set_prime_rate (rate : float) (p : ChemyxPump)
  : string * ChemyxPump :=
  send_command ("set primerate " +:+ PyFloat.float_repr rate) p.

Definition pause (p : ChemyxPump) : string * ChemyxPump :=
  send_command "pause" p.

Definition get_limits (p : ChemyxPump) : string * ChemyxPump :=
  send_command "read limit parameter" p.

Definition get_dispensed_volume (p : ChemyxPump) : string * ChemyxPump :=
  send_command "dispensed volume" p.

Definition get_elapsed_time (p : ChemyxPump) : string * ChemyxPump :=
  send_command "elapsed time" p.

Definition restart (p : ChemyxPump) : string * ChemyxPump :=
  send_command "restart" p.

(** [clear_communication]: a failure of the port is printed and dropped. *)
Definition clear_communication (p : ChemyxPump) : ChemyxPump :=
  match connection p with
  | None => p
  | Some conn =>
      if negb (is_open conn) then p
      else
        let (_, conn') := (reset_input_buffer ;;; reset_output_buffer) conn in
        with_connection p (Some conn')
  end.

(** [sub in s] *)
Fixpoint contains (s sub : string) : bool :=
  String.prefix sub s
  || match s with
     | EmptyString => false
     | String _ s' => contains s' sub
     end.

Definition view_parameter (param : string) (p : ChemyxPump)
  : string * ChemyxPump :=
  let (response, p') := send_command ("read " +:+ param) p in
  if contains (PyStr.lower response) "command list"
  then send_command ("read " +:+ param +:+ " parameter") p'
  else (response, p').

(** *** Limits *)

(** [float(parts[i])]: [None] is the [ValueError] of a text that is not a
    number. The index is within the list where this is used. *)
Definition float_at (parts : list string) (i : nat) : option float :=
  PyFloat.float_of_string (nth i parts EmptyString).

(** Lines 405-406. Both fields hold a float when the test is reached; the
    comparison of [None] would raise, which is the [None] result here. *)
Definition order_rates (p : ChemyxPump) : option ChemyxPump :=
  match min_rate p, max_rate p with
  | Some lo, Some hi =>
      if (hi <? lo)%float
      then Some (with_max_rate (with_min_rate p (Some hi)) (Some lo))
      else Some p
  | _, _ => None
  end.

(** Lines 407-408. *)
Definition order_volumes (p : ChemyxPump) : option ChemyxPump :=
  match min_volume p, max_volume p with
  | Some lo, Some hi =>
      if (hi <? lo)%float
      then Some (with_max_volume (with_min_volume p (Some hi)) (Some lo))
      else Some p
  | _, _ => None
  end.

(** Lines 397-412, after the reply was split. Each assignment takes effect
    before the next [float(...)] is tried, so a text that is not a number
    leaves the fields assigned before it. *)
Definition store_limits (parts : list string) (p : ChemyxPump)
  : bool * ChemyxPump :=
  if (4 <=? length parts)%nat then
    match float_at parts 0 with
    | None => (false, p)
    | Some v0 =>
        let p := with_max_rate p (Some v0) in
        match float_at parts 1 with
        | None => (false, p)
        | Some v1 =>
            let p := with_min_rate p (Some v1) in
            match float_at parts 2 with
            | None => (false, p)
            | Some v2 =>
                let p := with_max_volume p (Some v2) in
                match float_at parts 3 with
                | None => (false, p)
                | Some v3 =>
                    let p := with_min_volume p (Some v3) in
                    match order_rates p with
                    | None => (false, p)
                    | Some p =>
                        match order_volumes p with
                        | None => (false, p)
                        | Some p => (true, p)
                        end
                    end
                end
            end
        end
    end
  else (false, p).

(** [parse_limits]: every exception of the body ends in [return False]. *)
Definition parse_limits (p : ChemyxPump) : bool * ChemyxPump :=
  let (limits_response, p) := get_limits p in
  let parts := PyStr.split limits_response in
  store_limits parts p.

(** *** Connecting *)

(** [connect]. [opened] is what [serial.Serial(...)] gives: a port object or
    an exception. *)
Definition connect (opened : result Serial) (p : ChemyxPump)
  : bool * ChemyxPump :=
  match opened with
  | Raise _ => (false, p)
  | Ok conn =>
      let p := with_connection p (Some conn) in
      let p := clear_communication p in
      match connection p with
      | Some conn' =>
          if is_open conn' then
            let (_, p) := send_command "status" p in
            let (_, p) := parse_limits p in
            (true, p)
          else (false, p)
      | None => (false, p)
      end
  end.

Definition disconnect (p : ChemyxPump) : ChemyxPump :=
  match connection p with
  | Some conn =>
      if is_open conn then with_connection p (Some (close conn)) else p
  | None => p
  end.

(** ** Calls and reachable states

    A client drives the pump through its methods. [load_config] and
    [save_config] read and write files and act on the pump only through the
    methods below, so a run of either is a sequence of these calls. *)

Inductive call : Type :=
| Connect (opened : result Serial)
| Disconnect
| SendCommand (command : string)
| SetRate (rate : float)
| SetVolume (volume : float) (mode : string)
| SetDiameter (diameter : float)
| Start
| Stop
| GetStatus
| SetAllParameters (diameter volume rate : float) (delay : pynum)
    (mode : string) (start_immediately : bool)
| GetParameters
| SetUnits (unit_code : Z)
| SetTime (time : float)
| SetDelay (delay : float)
| SetPrimeRate (rate : float)
| Pause
| GetLimits
| GetDispensedVolume
| GetElapsedTime
| Restart
| ClearCommunication
| ViewParameter (param : string)
| ParseLimits
| GetCurrentUnits.

(** The state a call leaves behind, whether it returns or raises. *)
Definition run (c : call) (p : ChemyxPump) : ChemyxPump :=
  match c with
  | Connect opened => snd (connect opened p)
  | Disconnect => disconnect p
  | SendCommand command => snd (send_command command p)
  | SetRate rate => snd (set_rate rate p)
  | SetVolume volume mode => snd (set_volume volume mode p)
  | SetDiameter diameter => snd (set_diameter diameter p)
  | Start => snd (start p)
  | Stop => snd (stop p)
  | GetStatus => snd (get_status p)
  | SetAllParameters diameter volume rate delay mode start_immediately =>
      snd (set_all_parameters diameter volume rate delay mode
             start_immediately p)
  | GetParameters => snd (get_parameters p)
  | SetUnits unit_code => snd (set_units unit_code p)
  | SetTime time => snd (set_time time p)
  | SetDelay delay => snd (set_delay delay p)
  | SetPrimeRate rate => snd (set_prime_rate rate p)
  | Pause => snd (pause p)
  | GetLimits => snd (get_limits p)
  | GetDispensedVolume => snd (get_dispensed_volume p)
  | GetElapsedTime => snd (get_elapsed_time p)
  | Restart => snd (restart p)
  | ClearCommunication => clear_communication p
  | ViewParameter param => snd (view_parameter param p)
  | ParseLimits => snd (parse_limits p)
  | GetCurrentUnits => p
  end.

Inductive reachable : ChemyxPump -> Prop :=
| reachable_init port baudrate : reachable (init port baudrate)
| reachable_run c p : reachable p -> reachable (run c p).

(** ** Vocabulary of the properties *)

Definition no_faults : port_op -> option string := fun _ => None.

(** What the device answers to the next write. *)
Definition next_reply (conn : Serial) : reply :=
  match script conn with
  | r :: _ => r
  | [] => {| ready := []; late := timed_out |}
  end.

(** The non-empty stripped lines among the raw lines read. *)
Definition collected (raws : list string) : list string :=
  List.filter PyStr.truthy (map PyStr.strip raws).

(** The drained lines of a transaction whose reply is the raw lines [raws],
    with [late_raw] arriving (or not: the empty text) after them. *)
Definition drained (raws : list string) (late_raw : string) : list string :=
  match collected raws with
  | [] => collected [late_raw]
  | l => l
  end.

(** Noise: a prompt line, or a line that starts with the command as sent,
    outer spaces removed. *)
Definition is_noise (command line : string) : bool :=
  PyStr.startswith line ">"
  || PyStr.startswith line (PyStr.strip command).

Definition is_candidate (command line : string) : bool :=
  negb (is_noise command line).

Definition last_candidate (command : string) (lines : list string) : string :=
  default "No response" (last (List.filter (is_candidate command) lines)).

(** The echo test as the specification words it: a prefix match that
    ignores letter case and spaces. *)
Definition spec_normalize (s : string) : string :=
  PyStr.lower (PyStr.remove_spaces s).

Definition spec_is_noise (command line : string) : bool :=
  PyStr.startswith line ">"
  || PyStr.startswith (spec_normalize line) (spec_normalize command).

Definition spec_last_candidate (command : string) (lines : list string)
  : string :=
  default "No response"
    (last (List.filter (fun l => negb (spec_is_noise command l)) lines)).

(** A port that is open and never fails, with the given script. *)
Definition sound_port (replies : list reply) : Serial :=
  {| is_open := true; wire := []; in_buffer := []; late_line := timed_out;
     script := replies; faults := no_faults |}.

(** A reply made of lines that are all there when the pump polls. *)
Definition says (raws : list string) : reply :=
  {| ready := map RxLine raws; late := timed_out |}.

(** A freshly made pump holding the given port. *)
Definition pump_on (conn : Serial) : ChemyxPump :=
  with_connection (init "/dev/ttyUSB0" 38400) (Some conn).

(** What the pump has put on the wire so far. *)
Definition sent (p : ChemyxPump) : list string :=
  match connection p with
  | Some conn => wire conn
  | None => []
  end.

(** A port on which [write] raises with the given cause. *)
Definition write_fails (cause : string) : port_op -> option string :=
  fun op => match op with OpWrite => Some cause | _ => None end.

(** A float that is a number: not an infinity, not NaN. *)
Definition is_finite (x : float) : bool :=
  match Prim2SF x with
  | S754_zero _ | S754_finite _ _ _ => true
  | S754_infinity _ | S754_nan => false
  end.

Definition all_digits (s : string) : bool :=
  forallb PyFloat.is_digit (list_ascii_of_string s).

(** The rate in base units is outside the limits [lo] and [hi]. *)
Definition outside (x lo hi : float) : bool := ((x <? lo) || (hi <? x))%float.

(** The signed volume that [set_volume] formats. *)
Definition signed_volume (volume : float) (mode : string) : float :=
  if String.eqb mode "withdrawal" then (- abs volume)%float else abs volume.

(** The pump of the rate example: limits 0.5 and 10.0 mL/min, unit mL/hr,
    an open port that answers nothing. *)
Definition rate_example : ChemyxPump :=
  with_current_units
    (with_max_rate (with_min_rate (pump_on (sound_port [])) (Some 0.5%float))
       (Some 10%float)) 1.

(** A computation on the port that writes nothing and keeps the faults. *)
Definition silent {A} (m : io A) : Prop :=
  forall s, wire (snd (m s)) = wire s /\ faults (snd (m s)) = faults s.

(** The rate passes the test of [set_rate]: a limit is unset, or the rate in
    base units is inside the limits. *)
Definition rate_ok (p : ChemyxPump) (base : float) : bool :=
  match min_rate p, max_rate p with
  | Some lo, Some hi => negb (outside base lo hi)
  | _, _ => true
  end.

(** The volume passes the test of [set_volume]. *)
Definition volume_ok (p : ChemyxPump) (volume : float) : bool :=
  match min_volume p, max_volume p with
  | Some lo, Some hi => negb (outside (abs volume) lo hi)
  | _, _ => true
  end.

(** The composite command with its fields spelled out; [str] is Python's
    default text of a number. *)
Definition hexw2_text (diameter volume rate : float) (delay : pynum)
    (mode : string) (start_immediately : bool) : string :=
  "hexw2 0 " +:+ (if String.eqb mode "withdrawal" then "1" else "0")
    +:+ " " +:+ PyFloat.float_repr diameter
    +:+ " " +:+ PyFloat.float_repr (abs volume)
    +:+ " " +:+ PyFloat.float_repr rate
    +:+ " " +:+ py_str delay
    +:+ (if start_immediately then " start" else "").

(** The record [mrs] is the quotient of [N] by [D] with the position of the
    remainder: the round bit says that the remainder is at least half of
    [D], the sticky bit that it is neither zero nor exactly half. *)
Definition rec_ok (N D : Z) (mrs : shr_record) : Prop :=
  0 < D /\ 0 <= N
  /\ shr_m mrs = N / D
  /\ (shr_r mrs = true <-> D <= 2 * (N mod D))
  /\ (shr_s mrs = true <-> N mod D <> 0 /\ 2 * (N mod D) <> D).

(** Significand and exponent of a finite float, the significand signed;
    zero is [0 * 2^0]. *)
Definition finite_parts (f : spec_float) : option (Z * Z) :=
  match f with
  | S754_zero _ => Some (0, 0)
  | S754_finite s m e => Some (if s then Z.neg m else Z.pos m, e)
  | S754_infinity _ | S754_nan => None
  end.

(** Two finite floats as integers [A] and [B] on a common scale: their
    values are [A * 2^e0] and [B * 2^e0]. *)
Definition aligned (a b : spec_float) : option (Z * Z * Z) :=
  match finite_parts a, finite_parts b with
  | Some (ma, ea), Some (mb, eb) =>
      let e0 := Z.min ea eb in
      Some (ma * 2 ^ (ea - e0), mb * 2 ^ (eb - e0), e0)
  | _, _ => None
  end.

(** [|a - b| <= 1e-9 * |b|], exactly. *)
Definition sf_within_rel (a b : spec_float) : bool :=
  match aligned a b with
  | Some (A, B, _) => 10 ^ 9 * Z.abs (A - B) <=? Z.abs B
  | None => false
  end.

(** [|a - b| <= 1e-9], exactly. *)
Definition sf_within_abs (a b : spec_float) : bool :=
  match aligned a b with
  | Some (A, B, e0) =>
      if 0 <=? e0 then 10 ^ 9 * Z.abs (A - B) * 2 ^ e0 <=? 1
      else 10 ^ 9 * Z.abs (A - B) <=? 2 ^ (- e0)
  | None => false
  end.

Definition within_rel (a b : float) : bool :=
  sf_within_rel (Prim2SF a) (Prim2SF b).

Definition within_abs (a b : float) : bool :=
  sf_within_abs (Prim2SF a) (Prim2SF b).

(** Into base units and back. *)
Definition round_trip (x : float) (u : Z) : result float :=
  match convert_to_base_units x u with
  | Ok b => convert_from_base_units b u
  | Raise e => Raise e
  end.

(** The range of the round-trip theorem: [2^-1000 <= x <= 2^1000]. *)
Definition in_round_trip_range (x : float) : bool :=
  ((0x1p-1000 <=? x) && (x <=? 0x1p+1000))%float.

(** ** Loading a list of commands

    [load_config] reads a JSON document and, when the document has a list
    under [commands], applies every command line of the list through the
    methods of the pump. What follows is that loop, lines 328-346, on the
    list of lines; opening the file and wording the outcome stay with the
    caller. *)

(** What ends the loop before the end of the list. *)
Inductive load_error : Type :=
| NoWords
| NotANumber (text : string)
| NoValue
| Uncaught (e : exn).

Inductive loaded (A : Type) : Type :=
| Loaded (a : A)
| Aborted (e : load_error).
Arguments Loaded {A} a.
Arguments Aborted {A} e.

(** Line 331: [float(parts[1]) if len(parts) > 1 else None]; [rest] is the
    list of the words after the first. A text that is not a number raises
    [ValueError]. *)
Definition load_value (rest : list string) : loaded (option float) :=
  match rest with
  | [] => Loaded None
  | text :: _ =>
      match PyFloat.float_of_string text with
      | Some v => Loaded (Some v)
      | None => Aborted (NotANumber text)
      end
  end.

(** Lines 333-345, the dispatch on the first word. The result is the
    response that the loop appends, if any. A missing value is Python's
    [None]: an f-string shows it as [None], and comparing it or multiplying
    it raises [TypeError]; [set_rate] looks the unit up before it
    multiplies. *)
Definition load_apply (command : string) (value : option float)
    (p : ChemyxPump) : loaded (option string) * ChemyxPump :=
  if String.eqb command "diameter" then
    let (r, p') := match value with
                   | Some v => set_diameter v p
                   | None => send_command "set diameter None" p
                   end in
    (Loaded (Some r), p')
  else if String.eqb command "volume" then
    match value with
    | Some v =>
        let mode := if (v <? 0)%float then "withdrawal" else "infusion" in
        let (r, p') := set_volume (abs v) mode p in
        (Loaded (Some r), p')
    | None => (Aborted NoValue, p)
    end
  else if String.eqb command "rate" then
    match value with
    | Some v =>
        match set_rate v p with
        | (Ok r, p') => (Loaded (Some r), p')
        | (Raise e, p') => (Aborted (Uncaught e), p')
        end
    | None =>
        match unit_entry (current_units p) with
        | Ok _ => (Aborted NoValue, p)
        | Raise e => (Aborted (Uncaught e), p)
        end
    end
  else if String.eqb command "delay" then
    let (r, p') := match value with
                   | Some v => set_delay v p
                   | None => send_command "set delay None" p
                   end in
    (Loaded (Some r), p')
  else if String.eqb command "prime" then
    let (r, p') := match value with
                   | Some v => set_prime_rate v p
                   | None => send_command "set primerate None" p
                   end in
    (Loaded (Some r), p')
  else if String.eqb command "start" then
    let (r, p') := start p in
    (Loaded (Some r), p')
  else (Loaded None, p).

(** Lines 329-345, one turn of the loop: [parts[0]] of a line without words
    raises [IndexError]. *)
Definition load_command (cmd : string) (p : ChemyxPump)
  : loaded (option string) * ChemyxPump :=
  match PyStr.split cmd with
  | [] => (Aborted NoWords, p)
  | word :: rest =>
      let command := PyStr.lower word in
      match load_value rest with
      | Loaded value => load_apply command value p
      | Aborted e => (Aborted e, p)
      end
  end.

(** Lines 328-346: the loop, with the responses gathered so far. *)
Fixpoint load_commands (cmds : list string) (responses : list string)
    (p : ChemyxPump) : loaded (list string) * ChemyxPump :=
  match cmds with
  | [] => (Loaded responses, p)
  | cmd :: rest =>
      match load_command cmd p with
      | (Loaded (Some r), p') => load_commands rest (responses ++ [r])%list p'
      | (Loaded None, p') => load_commands rest responses p'
      | (Aborted e, p') => (Aborted e, p')
      end
  end.

(** ** Further vocabulary *)

(** The pump holds a connection that is open. *)
Definition online (p : ChemyxPump) : bool :=
  match connection p with
  | Some conn => is_open conn
  | None => false
  end.

(** The port lets a command out: neither the reset of its input buffer nor
    the write fails. *)
Definition lets_out (conn : Serial) : bool :=
  match faults conn OpResetInput, faults conn OpWrite with
  | None, None => true
  | _, _ => false
  end.

Definition writable (p : ChemyxPump) : bool :=
  match connection p with
  | Some conn => is_open conn && lets_out conn
  | None => false
  end.

(** What one [send_command] adds to the wire. *)
Definition appended (command : string) (p : ChemyxPump) : list string :=
  if writable p then [frame command] else [].

(** The data ends with the carriage return. *)
Definition terminated (data : string) : bool :=
  PyStr.endswith data PyStr.CR.

(** The pump as a call finds it: [connect] first installs the port that
    opening gave. *)
Definition entering (c : call) (p : ChemyxPump) : ChemyxPump :=
  match c with
  | Connect (Ok conn) => with_connection p (Some conn)
  | _ => p
  end.

Definition is_connect (c : call) : bool :=
  match c with
  | Connect _ => true
  | _ => false
  end.

Definition is_nan (x : float) : bool :=
  match Prim2SF x with
  | S754_nan => true
  | _ => false
  end.

(** A computation on the port that writes nothing, fails nothing new and
    neither opens nor closes the port. *)
Definition quiet {A} (m : io A) : Prop :=
  forall s,
    is_open (snd (m s)) = is_open s
    /\ wire (snd (m s)) = wire s
    /\ faults (snd (m s)) = faults s.

(** The pump with other items waiting in the input buffer of its port. *)
Definition with_pending (p : ChemyxPump) (items : list rx_item) : ChemyxPump :=
  match connection p with
  | Some conn => with_connection p (Some (with_in_buffer conn items))
  | None => p
  end.

(** The four limits of the pump. *)
Definition limits (p : ChemyxPump)
  : option float * option float * option float * option float :=
  (min_rate p, max_rate p, min_volume p, max_volume p).

(** The wire of [p'] is the wire of [p] followed by at most [n] payloads,
    each ending with the carriage return. *)
Definition grows (n : nat) (p p' : ChemyxPump) : Prop :=
  exists new,
    sent p' = (sent p ++ new)%list
    /\ Forall (fun data => terminated data = true) new
    /\ (length new <= n)%nat.


Example strip_ex : PyStr.strip ("  set rate 1 " +:+ PyStr.CR) = "set rate 1".
Proof. reflexivity. Qed.

Example split_ex : PyStr.split " 10.0  0.5 5.0 0.1 " = ["10.0"; "0.5"; "5.0"; "0.1"].
Proof. reflexivity. Qed.

Example endswith_ex : PyStr.endswith ("start" +:+ PyStr.CR) PyStr.CR = true.
Proof. reflexivity. Qed.

Example format_4f_ex :
  map PyFloat.format_4f [2; -2; 0.00005; -0.00001; 2.675; 600.0000000000001]%float
  = ["2.0000"; "-2.0000"; "0.0001"; "-0.0000"; "2.6750"; "600.0000"].
Proof. vm_compute. reflexivity. Qed.

Example float_repr_ex :
  map PyFloat.float_repr [23.04; 1.2; 3; 1e16; 0.00001; 0.1 + 0.2; 5e-324]%float
  = ["23.04"; "1.2"; "3.0"; "1e+16"; "1e-05"; "0.30000000000000004"; "5e-324"].
Proof. vm_compute. reflexivity. Qed.

Example float_of_string_ex :
  map PyFloat.float_of_string ["0.1"; "1e3"; " -Inf "; "1_0.5"; "abc"; "Error:"]
  = [Some 0.1; Some 1000; Some neg_infinity; Some 10.5; None; None]%float.
Proof. vm_compute. reflexivity. Qed.

Example factor_ex : (600 * (1 / 60) =? 10)%float = true.
Proof. vm_compute. reflexivity. Qed.

(** * Facts about the string methods *)

Section StringFacts.

Lemma rstrip_app_CR (s : string) : PyStr.rstrip (s +:+ PyStr.CR) = PyStr.rstrip s.
Proof.
  induction s as [|c s IH]; [reflexivity|].
  simpl. by rewrite IH.
Qed.

Lemma lstrip_app_CR (s : string) :
  (PyStr.lstrip (s +:+ PyStr.CR) = EmptyString /\ PyStr.lstrip s = EmptyString)
  \/ PyStr.lstrip (s +:+ PyStr.CR) = PyStr.lstrip s +:+ PyStr.CR.
Proof.
  induction s as [|c s IH]; [left; split; reflexivity|].
  simpl. destruct (PyStr.isspace c); [exact IH | right; reflexivity].
Qed.

Lemma strip_app_CR (s : string) : PyStr.strip (s +:+ PyStr.CR) = PyStr.strip s.
Proof.
  unfold PyStr.strip.
  destruct (lstrip_app_CR s) as [[-> ->] | ->]; [reflexivity|].
  apply rstrip_app_CR.
Qed.

Lemma strip_frame (command : string) :
  PyStr.strip (frame command) = PyStr.strip command.
Proof.
  unfold frame. destruct (PyStr.endswith command PyStr.CR); [reflexivity|].
  apply strip_app_CR.
Qed.

End StringFacts.

(** * Facts about one transaction *)

Section Transaction.

(** The selection loop leaves the last kept response. *)
Lemma pick_fold (command : string) (responses : list string) (acc : option string) :
  fold_left
    (fun final_response response =>
       if keeps command response then Some response else final_response)
    responses acc
  = match last (List.filter (keeps command) responses) with
    | Some r => Some r
    | None => acc
    end.
Proof.
  revert acc. induction responses as [|r rs IH]; intros acc; [reflexivity|].
  cbn [fold_left List.filter]. rewrite IH.
  destruct (keeps command r) eqn:K; [|reflexivity].
  destruct (List.filter (keeps command) rs) as [|x xs] eqn:F; [reflexivity|].
  change (last (r :: x :: xs)) with (last (x :: xs)).
  destruct (last (x :: xs)) eqn:L; [reflexivity|].
  by apply last_None in L.
Qed.

Lemma pick_last (command : string) (responses : list string) :
  pick command responses = last (List.filter (keeps command) responses).
Proof.
  unfold pick. rewrite pick_fold.
  by destruct (last (List.filter (keeps command) responses)).
Qed.

Lemma keeps_frame (command line : string) :
  keeps (frame command) line = is_candidate command line.
Proof.
  unfold keeps, is_candidate, is_noise. rewrite strip_frame.
  by rewrite negb_orb.
Qed.

Lemma collected_truthy (raws : list string) :
  Forall (fun l => PyStr.truthy l = true) (collected raws).
Proof.
  unfold collected. apply List.Forall_forall. intros l Hl.
  by apply List.filter_In in Hl as [_ Hl].
Qed.

Lemma drained_truthy (raws : list string) (late_raw : string) :
  Forall (fun l => PyStr.truthy l = true) (drained raws late_raw).
Proof.
  unfold drained. pose proof (collected_truthy raws) as H.
  destruct (collected raws); [apply collected_truthy | exact H].
Qed.

Lemma filter_truthy (f : string -> bool) (l : list string) :
  Forall (fun x => PyStr.truthy x = true) l ->
  Forall (fun x => PyStr.truthy x = true) (List.filter f l).
Proof.
  intros H. apply List.Forall_forall. intros x Hx.
  apply List.filter_In in Hx as [Hx _].
  by apply (proj1 (List.Forall_forall _ _) H).
Qed.

(** The answer of the transaction is the last candidate, as soon as no
    response is the empty text. *)
Lemma answer_pick (command : string) (responses : list string) :
  Forall (fun l => PyStr.truthy l = true) responses ->
  answer (pick (frame command) responses) = last_candidate command responses.
Proof.
  intros H. rewrite pick_last. unfold last_candidate.
  rewrite (List.filter_ext _ _ (keeps_frame command)).
  pose proof (filter_truthy (is_candidate command) _ H) as HF.
  destruct (last (List.filter (is_candidate command) responses)) as [r|] eqn:L;
    [|reflexivity].
  cbn. apply last_Some in L as [l' L]. rewrite L in HF.
  apply Forall_app in HF as [_ HF]. apply Forall_inv in HF. by rewrite HF.
Qed.

(** One turn of the polling loop on a pending line. *)
Lemma drain_step (fuel : nat) (acc : list string) (raw : string) o w rest l sc f :
  f OpInWaiting = None ->
  drain (S fuel) acc
    {| is_open := o; wire := w; in_buffer := RxLine raw :: rest;
       late_line := l; script := sc; faults := f |}
  = drain fuel
      (if PyStr.truthy (PyStr.strip raw) then (acc ++ [PyStr.strip raw])%list
       else acc)
      {| is_open := o; wire := w; in_buffer := rest;
         late_line := l; script := sc; faults := f |}.
Proof.
  intros Hf. cbn [drain]. unfold io_bind at 1, in_waiting, guarded.
  cbn [faults in_buffer]. rewrite Hf.
  destruct (Z.eqb_spec (Z.of_nat (length (RxLine raw :: rest))) 0) as [E|_];
    [cbn in E; lia|].
  unfold io_bind, readline, with_in_buffer. cbn [in_buffer is_open wire late_line script faults].
  by destruct (PyStr.truthy (PyStr.strip raw)).
Qed.

(** The polling loop stops on an empty buffer. *)
Lemma drain_stop (fuel : nat) (acc : list string) o w l sc f :
  f OpInWaiting = None ->
  drain (S fuel) acc
    {| is_open := o; wire := w; in_buffer := [];
       late_line := l; script := sc; faults := f |}
  = (Ok acc,
     {| is_open := o; wire := w; in_buffer := [];
        late_line := l; script := sc; faults := f |}).
Proof.
  intros Hf. cbn [drain]. unfold io_bind, in_waiting, guarded.
  cbn [faults in_buffer]. by rewrite Hf.
Qed.

(** The polling loop on a buffer of lines collects the non-empty stripped
    ones and empties the buffer. *)
Lemma drain_lines (raws : list string) :
  forall (fuel : nat) (acc : list string) o w l sc f,
    f OpInWaiting = None ->
    (length raws < fuel)%nat ->
    drain fuel acc
      {| is_open := o; wire := w; in_buffer := map RxLine raws;
         late_line := l; script := sc; faults := f |}
    = (Ok (acc ++ collected raws)%list,
       {| is_open := o; wire := w; in_buffer := [];
          late_line := l; script := sc; faults := f |}).
Proof.
  induction raws as [|raw raws IH]; intros fuel acc o w l sc f Hf Hlen;
    (destruct fuel as [|fuel]; [cbn in Hlen; lia|]).
  - rewrite drain_stop by done. by rewrite app_nil_r.
  - cbn [map]. rewrite drain_step by done.
    rewrite IH; [|done|cbn in Hlen; lia].
    unfold collected. cbn [map List.filter].
    destruct (PyStr.truthy (PyStr.strip raw)); [|reflexivity].
    by rewrite <- app_assoc.
Qed.

(** A transaction on a port that does not fail, answered by lines. *)
Lemma exchange_lines (command : string) o w b l0 sc f raws late_raw :
  let conn := {| is_open := o; wire := w; in_buffer := b; late_line := l0;
                 script := sc; faults := f |} in
  f OpResetInput = None -> f OpWrite = None ->
  f OpFlush = None -> f OpInWaiting = None ->
  ready (next_reply conn) = map RxLine raws ->
  late (next_reply conn) = RxLine late_raw ->
  fst (exchange command conn)
    = Ok (answer (pick (frame command) (drained raws late_raw)))
  /\ wire (snd (exchange command conn)) = (w ++ [frame command])%list.
Proof.
  intros conn HR HW HF HI Hready Hlate.
  assert (exists sc', forall (B : Type) (s0 : io B),
    (write (frame command) ;;; flush ;;; s0)
      {| is_open := o; wire := w; in_buffer := []; late_line := l0;
         script := sc; faults := f |}
    = s0 {| is_open := o; wire := (w ++ [frame command])%list;
            in_buffer := map RxLine raws; late_line := RxLine late_raw;
            script := sc'; faults := f |}) as [sc' Hsend].
  { unfold next_reply in Hready, Hlate. subst conn.
    destruct sc as [|r rest]; cbn in Hready, Hlate.
    - exists []. intros B s0. unfold io_bind, write, flush, guarded. cbn.
      rewrite HW. cbn. rewrite HF. by rewrite <- Hready, <- Hlate.
    - exists rest. intros B s0. unfold io_bind, write, flush, guarded. cbn.
      rewrite HW. cbn. rewrite HF. by rewrite Hready, Hlate. }
  enough (exists s', exchange command conn
                      = (Ok (answer (pick (frame command) (drained raws late_raw))), s')
                      /\ wire s' = (w ++ [frame command])%list) as (s' & -> & Hw)
    by done.
  unfold exchange. unfold io_bind at 1. unfold reset_input_buffer, guarded.
  subst conn. cbn [faults]. rewrite HR. unfold with_in_buffer.
  cbn [is_open wire late_line script faults].
  rewrite Hsend. unfold io_bind at 1. unfold drain_all. cbn [in_buffer].
  rewrite drain_lines; [|done|rewrite length_map; lia]. cbn [app].
  unfold drained. destruct (collected raws) as [|c cs] eqn:C.
  - unfold io_bind, read_once_more, readline, io_ret, collected. cbn.
    destruct (PyStr.truthy (PyStr.strip late_raw)); eexists; split; reflexivity.
  - cbn. eexists; split; reflexivity.
Qed.

End Transaction.

(** * The transaction engine: claims C1, C2 and C9 *)

Section SendCommand.

(** [send_command] on an open port that does not fail, answered by lines:
    the result is the last candidate, and the framed command is on the
    wire. *)
Lemma send_command_lines (command : string) (p : ChemyxPump) (conn : Serial)
    (raws : list string) (late_raw : string) :
  connection p = Some conn ->
  is_open conn = true ->
  (forall op, faults conn op = None) ->
  ready (next_reply conn) = map RxLine raws ->
  late (next_reply conn) = RxLine late_raw ->
  fst (send_command command p) = last_candidate command (drained raws late_raw)
  /\ sent (snd (send_command command p)) = (wire conn ++ [frame command])%list.
Proof.
  intros Hc Ho Hf Hready Hlate. unfold send_command. rewrite Hc, Ho. cbn [negb].
  destruct conn as [o w b l0 sc f]. cbn in Hf.
  destruct (exchange_lines command o w b l0 sc f raws late_raw
              (Hf _) (Hf _) (Hf _) (Hf _) Hready Hlate) as [E1 E2].
  destruct (exchange command _) as [[r|e] conn']; cbn in E1, E2; [|discriminate].
  injection E1 as ->. cbn. split; [|exact E2].
  apply answer_pick, drained_truthy.
Qed.

Lemma io_bind_raise {A B} (m : io A) (k : A -> io B) s e s' :
  m s = (Raise e, s') -> io_bind m k s = (Raise e, s').
Proof. intros H. unfold io_bind. by rewrite H. Qed.

Lemma io_bind_ok {A B} (m : io A) (k : A -> io B) s a s' :
  m s = (Ok a, s') -> io_bind m k s = k a s'.
Proof. intros H. unfold io_bind. by rewrite H. Qed.

Lemma guarded_fault {A} (op : port_op) (body : io A) s cause :
  faults s op = Some cause ->
  guarded op body s = (Raise (SerialException cause), s).
Proof. intros H. unfold guarded. by rewrite H. Qed.

Lemma guarded_ok {A} (op : port_op) (body : io A) s :
  faults s op = None -> guarded op body s = body s.
Proof. intros H. unfold guarded. by rewrite H. Qed.

(** A successful write keeps the faults of the port. *)
Lemma write_ok (data : string) (s : Serial) :
  faults s OpWrite = None ->
  exists s', write data s = (Ok tt, s') /\ faults s' = faults s
             /\ wire s' = (wire s ++ [data])%list.
Proof.
  intros H. unfold write. rewrite guarded_ok by done.
  destruct (script s); eexists; repeat split.
Qed.

(** A fault of the port in an operation of the transaction ends the
    transaction with the cause of a faulty operation. *)
Lemma exchange_fault (command : string) (conn : Serial) (op : port_op)
    (cause : string) :
  faults conn op = Some cause ->
  op <> OpResetOutput ->
  exists op' cause' conn',
    faults conn op' = Some cause'
    /\ exchange command conn = (Raise (SerialException cause'), conn').
Proof.
  intros Hop Hne. unfold exchange.
  destruct (faults conn OpResetInput) as [c1|] eqn:H1.
  { exists OpResetInput, c1, conn. split; [done|].
    apply io_bind_raise. by apply guarded_fault. }
  erewrite io_bind_ok; [|unfold reset_input_buffer; by rewrite guarded_ok].
  set (s1 := with_in_buffer conn []).
  destruct (faults conn OpWrite) as [c2|] eqn:H2.
  { exists OpWrite, c2, s1. split; [done|].
    apply io_bind_raise. by apply guarded_fault. }
  destruct (write_ok (frame command) s1 H2) as (s2 & Hw & Hf2 & _).
  erewrite io_bind_ok by exact Hw.
  destruct (faults conn OpFlush) as [c3|] eqn:H3.
  { exists OpFlush, c3, s2. split; [done|].
    apply io_bind_raise. apply guarded_fault. by rewrite Hf2. }
  erewrite io_bind_ok; [|unfold flush; rewrite guarded_ok; [done|by rewrite Hf2]].
  destruct (faults conn OpInWaiting) as [c4|] eqn:H4.
  { exists OpInWaiting, c4, s2. split; [done|].
    apply io_bind_raise. unfold drain_all. cbn [drain].
    apply io_bind_raise. apply guarded_fault. by rewrite Hf2. }
  destruct op; congruence.
Qed.

(** C1, amended: on an open connection whose port does not fail, the result
    of a transaction is the last drained line that is a candidate, or
    ["No response"] without one; a line is noise exactly when it starts with
    [>] or starts with the sent command, outer spaces removed, letter for
    letter. *)
Theorem C1_result_is_last_candidate (command : string) (p : ChemyxPump)
    (conn : Serial) (raws : list string) (late_raw : string) :
  connection p = Some conn ->
  is_open conn = true ->
  (forall op, faults conn op = None) ->
  ready (next_reply conn) = map RxLine raws ->
  late (next_reply conn) = RxLine late_raw ->
  fst (send_command command p) = last_candidate command (drained raws late_raw).
Proof.
  intros Hc Ho Hf Hready Hlate.
  exact (proj1 (send_command_lines command p conn raws late_raw
                  Hc Ho Hf Hready Hlate)).
Qed.

(** C1, the example of the claim: the echo and the prompt are dropped and
    the last line is the result. *)
Lemma C1_witness :
  fst (send_command "set rate 1.0000"
         (pump_on (sound_port [says ["set rate 1.0000"; ">"; "OK: rate set"]])))
  = "OK: rate set".
Proof.
  exact (C1_result_is_last_candidate "set rate 1.0000"
           (pump_on (sound_port [says ["set rate 1.0000"; ">"; "OK: rate set"]]))
           (sound_port [says ["set rate 1.0000"; ">"; "OK: rate set"]])
           ["set rate 1.0000"; ">"; "OK: rate set"] EmptyString
           eq_refl eq_refl (fun _ => eq_refl) eq_refl eq_refl).
Defined.

(** C1 as stated fails: the echo test is sensitive to letter case. The
    device answers the command [start] with the line [START]; the
    specification's test calls the line an echo, the code returns it. *)
Lemma C1_counterexample :
  fst (send_command "start" (pump_on (sound_port [says ["START"]]))) = "START"
  /\ spec_is_noise "start" "START" = true
  /\ spec_last_candidate "start" (drained ["START"] EmptyString) = "No response".
Proof. repeat split; reflexivity. Qed.

(** C2, amended: on an open connection whose port does not fail, a
    transaction in which every drained line is noise (or no line arrives)
    results in ["No response"]; a line is noise exactly when it starts with
    [>] or starts with the sent command, outer spaces removed, letter for
    letter. *)
Theorem C2_no_candidate_is_no_response (command : string) (p : ChemyxPump)
    (conn : Serial) (raws : list string) (late_raw : string) :
  connection p = Some conn ->
  is_open conn = true ->
  (forall op, faults conn op = None) ->
  ready (next_reply conn) = map RxLine raws ->
  late (next_reply conn) = RxLine late_raw ->
  Forall (fun line => is_noise command line = true) (drained raws late_raw) ->
  fst (send_command command p) = "No response".
Proof.
  intros Hc Ho Hf Hready Hlate Hnoise.
  rewrite (proj1 (send_command_lines command p conn raws late_raw
                    Hc Ho Hf Hready Hlate)).
  unfold last_candidate.
  replace (List.filter (is_candidate command) (drained raws late_raw))
    with (@nil string); [reflexivity|].
  symmetry. induction Hnoise as [|l ls Hl _ IH]; [reflexivity|].
  cbn. unfold is_candidate at 1. by rewrite Hl.
Qed.

(** C2, the example of the claim: only a prompt arrives. *)
Lemma C2_witness :
  fst (send_command "status" (pump_on (sound_port [says [">"]])))
  = "No response".
Proof.
  apply (C2_no_candidate_is_no_response "status"
           (pump_on (sound_port [says [">"]]))
           (sound_port [says [">"]]) [">"] EmptyString
           eq_refl eq_refl (fun _ => eq_refl) eq_refl eq_refl).
  repeat constructor.
Defined.

(** C2 as stated fails: with the echo test of the specification, which
    ignores letter case and spaces, every drained line below is noise, on an
    open port that never fails; the code returns the echo in capitals, not
    ["No response"]. *)
Lemma C2_counterexample :
  is_open (sound_port [says ["SET UNITS 1"; ">"]]) = true
  /\ Forall (fun line => spec_is_noise "set units 1" line = true)
       (drained ["SET UNITS 1"; ">"] EmptyString)
  /\ spec_last_candidate "set units 1" (drained ["SET UNITS 1"; ">"] EmptyString)
     = "No response"
  /\ fst (send_command "set units 1"
            (pump_on (sound_port [says ["SET UNITS 1"; ">"]])))
     = "SET UNITS 1"
  /\ fst (send_command "set units 1"
            (pump_on (sound_port [says ["SET UNITS 1"; ">"]])))
     <> "No response".
Proof.
  split; [reflexivity|]. split; [repeat constructor|].
  split; [reflexivity|]. split; [reflexivity|].
  intros H. vm_compute in H. discriminate H.
Qed.

(** C9: without an open connection [send_command] returns the
    not-connected text and leaves the pump, port included, as it was; on an
    open connection every exception of the exchange becomes the text
    [Command failed:] with its cause, and a faulty port operation does raise
    one. The result is always a text: the function has no exceptional
    outcome. *)
Theorem C9_send_command_total (command : string) (p : ChemyxPump) :
  (connection p = None \/
   (exists conn, connection p = Some conn /\ is_open conn = false) ->
   send_command command p = ("Error: Not connected to pump", p))
  /\ (forall conn, connection p = Some conn -> is_open conn = true ->
      (forall r conn', exchange command conn = (Ok r, conn') ->
         send_command command p = (r, with_connection p (Some conn')))
      /\ (forall e conn', exchange command conn = (Raise e, conn') ->
         send_command command p
         = ("Command failed: " +:+ exn_str e, with_connection p (Some conn')))
      /\ (forall op cause, faults conn op = Some cause -> op <> OpResetOutput ->
         exists op' cause', faults conn op' = Some cause'
           /\ fst (send_command command p) = "Command failed: " +:+ cause')).
Proof.
  split.
  - intros [Hn | (conn & Hc & Ho)]; unfold send_command.
    + by rewrite Hn.
    + by rewrite Hc, Ho.
  - intros conn Hc Ho. unfold send_command. rewrite Hc, Ho. cbn [negb].
    split; [|split].
    + by intros r conn' ->.
    + by intros e conn' ->.
    + intros op cause Hop Hne.
      destruct (exchange_fault command conn op cause Hop Hne)
        as (op' & cause' & conn' & Hf & ->).
      by exists op', cause'.
Qed.

(** C9 on a pump that was never connected and on a port whose [write]
    raises. *)
Lemma C9_witness :
  send_command "status" (init "/dev/ttyUSB0" 38400)
  = ("Error: Not connected to pump", init "/dev/ttyUSB0" 38400)
  /\ exists op' cause',
       write_fails "device unplugged" op' = Some cause'
       /\ fst (send_command "status"
                 (pump_on
                    {| is_open := true; wire := []; in_buffer := [];
                       late_line := timed_out; script := [];
                       faults := write_fails "device unplugged" |}))
          = "Command failed: " +:+ cause'.
Proof.
  split.
  - exact (proj1 (C9_send_command_total "status" (init "/dev/ttyUSB0" 38400))
             (or_introl eq_refl)).
  - exact (proj2 (proj2 (proj2 (C9_send_command_total "status"
             (pump_on
                {| is_open := true; wire := []; in_buffer := [];
                   late_line := timed_out; script := [];
                   faults := write_fails "device unplugged" |}))
             _ eq_refl eq_refl))
             OpWrite "device unplugged" eq_refl ltac:(discriminate)).
Defined.

End SendCommand.

(** * Limits: claim C4 *)

Section Limits.

(** [send_command] touches nothing but the connection. *)
Lemma send_command_frame (command : string) (p : ChemyxPump) :
  let p' := snd (send_command command p) in
  min_rate p' = min_rate p /\ max_rate p' = max_rate p
  /\ min_volume p' = min_volume p /\ max_volume p' = max_volume p
  /\ current_units p' = current_units p.
Proof.
  unfold send_command. destruct (connection p) as [conn|]; [|done].
  destruct (negb (is_open conn)); [done|].
  by destruct (exchange command conn) as [[r|e] conn'].
Qed.

Lemma store_limits_short (parts : list string) (p : ChemyxPump) :
  (length parts < 4)%nat -> store_limits parts p = (false, p).
Proof.
  intros H. unfold store_limits.
  destruct (Nat.leb_spec 4 (length parts)); [lia|reflexivity].
Qed.

Lemma store_limits_true (parts : list string) (p : ChemyxPump) :
  fst (store_limits parts p) = true ->
  (4 <= length parts)%nat
  /\ forall i, (i < 4)%nat -> is_Some (float_at parts i).
Proof.
  unfold store_limits.
  destruct (Nat.leb_spec 4 (length parts)) as [Hlen|_]; [|discriminate].
  destruct (float_at parts 0) as [v0|] eqn:E0; [|discriminate].
  destruct (float_at parts 1) as [v1|] eqn:E1; [|discriminate].
  destruct (float_at parts 2) as [v2|] eqn:E2; [|discriminate].
  destruct (float_at parts 3) as [v3|] eqn:E3; [|discriminate].
  intros _. split; [exact Hlen|]. intros i Hi.
  destruct i as [|[|[|[|i]]]]; [eauto..|lia].
Qed.

Lemma store_limits_ok (parts : list string) (p : ChemyxPump) (v0 v1 v2 v3 : float) :
  (4 <= length parts)%nat ->
  float_at parts 0 = Some v0 -> float_at parts 1 = Some v1 ->
  float_at parts 2 = Some v2 -> float_at parts 3 = Some v3 ->
  store_limits parts p
  = (true,
     {| port := port p; baudrate := baudrate p; connection := connection p;
        min_rate := Some (if (v0 <? v1)%float then v0 else v1);
        max_rate := Some (if (v0 <? v1)%float then v1 else v0);
        min_volume := Some (if (v2 <? v3)%float then v2 else v3);
        max_volume := Some (if (v2 <? v3)%float then v3 else v2);
        current_units := current_units p |}).
Proof.
  intros Hlen E0 E1 E2 E3. unfold store_limits.
  destruct (Nat.leb_spec 4 (length parts)); [|lia].
  rewrite E0, E1, E2, E3.
  unfold order_rates, order_volumes, with_max_rate, with_min_rate,
    with_max_volume, with_min_volume.
  cbn [min_rate max_rate min_volume max_volume port baudrate connection
       current_units].
  destruct (v0 <? v1)%float;
    cbn [min_rate max_rate min_volume max_volume port baudrate connection
         current_units];
    by destruct (v2 <? v3)%float.
Qed.

(** C4, amended: [parse_limits] succeeds exactly when the reply splits into
    at least four fields of which the first four read as numbers; it then
    stores them in the order max_rate, min_rate, max_volume, min_volume and
    swaps a pair that arrives inverted. With fewer than four fields it
    fails and leaves the four limits as they were. It always returns a
    boolean. *)
Theorem C4_parse_limits (p : ChemyxPump) :
  let parts := PyStr.split (fst (get_limits p)) in
  let p' := snd (parse_limits p) in
  (fst (parse_limits p) = true <->
     (4 <= length parts)%nat
     /\ forall i, (i < 4)%nat -> is_Some (float_at parts i))
  /\ (forall v0 v1 v2 v3,
        (4 <= length parts)%nat ->
        float_at parts 0 = Some v0 -> float_at parts 1 = Some v1 ->
        float_at parts 2 = Some v2 -> float_at parts 3 = Some v3 ->
        fst (parse_limits p) = true
        /\ min_rate p' = Some (if (v0 <? v1)%float then v0 else v1)
        /\ max_rate p' = Some (if (v0 <? v1)%float then v1 else v0)
        /\ min_volume p' = Some (if (v2 <? v3)%float then v2 else v3)
        /\ max_volume p' = Some (if (v2 <? v3)%float then v3 else v2))
  /\ ((length parts < 4)%nat ->
        fst (parse_limits p) = false
        /\ min_rate p' = min_rate p /\ max_rate p' = max_rate p
        /\ min_volume p' = min_volume p /\ max_volume p' = max_volume p).
Proof.
  intros parts p'. subst parts p'. unfold parse_limits, get_limits.
  pose proof (send_command_frame "read limit parameter" p) as Hframe.
  destruct (send_command "read limit parameter" p) as [reply p1].
  cbn [fst snd] in *. split; [split|split].
  - apply store_limits_true.
  - intros [Hlen Hall].
    destruct (Hall 0%nat) as [v0 E0]; [lia|].
    destruct (Hall 1%nat) as [v1 E1]; [lia|].
    destruct (Hall 2%nat) as [v2 E2]; [lia|].
    destruct (Hall 3%nat) as [v3 E3]; [lia|].
    by rewrite (store_limits_ok _ p1 v0 v1 v2 v3).
  - intros v0 v1 v2 v3 Hlen E0 E1 E2 E3.
    by rewrite (store_limits_ok _ p1 v0 v1 v2 v3).
  - intros Hlen. rewrite store_limits_short by done. cbn [fst snd].
    by destruct Hframe as (-> & -> & -> & -> & _).
Qed.

(** C4, the examples of the claim: the reply in the device's order and the
    inverted reply leave the same limits. *)
Lemma C4_witness :
  let a := snd (parse_limits (pump_on (sound_port [says ["10.0 0.5 5.0 0.1"]]))) in
  let b := snd (parse_limits (pump_on (sound_port [says ["0.5 10.0 0.1 5.0"]]))) in
  (min_rate a = Some 0.5%float /\ max_rate a = Some 10%float
   /\ min_volume a = Some 0.1%float /\ max_volume a = Some 5%float)
  /\ (min_rate b = Some 0.5%float /\ max_rate b = Some 10%float
      /\ min_volume b = Some 0.1%float /\ max_volume b = Some 5%float).
Proof.
  split.
  - exact (proj2 (proj1 (proj2
      (C4_parse_limits (pump_on (sound_port [says ["10.0 0.5 5.0 0.1"]]))))
      10%float 0.5%float 5%float 0.1%float
      (le_n 4) eq_refl eq_refl eq_refl eq_refl)).
  - exact (proj2 (proj1 (proj2
      (C4_parse_limits (pump_on (sound_port [says ["0.5 10.0 0.1 5.0"]]))))
      0.5%float 10%float 0.1%float 5%float
      (le_n 4) eq_refl eq_refl eq_refl eq_refl)).
Defined.

(** C4 as stated fails: a reply of five fields is accepted, the fifth
    ignored. *)
Lemma C4_counterexample :
  length (PyStr.split "10.0 0.5 5.0 0.1 99") = 5%nat
  /\ fst (parse_limits (pump_on (sound_port [says ["10.0 0.5 5.0 0.1 99"]])))
     = true.
Proof. split; reflexivity. Qed.

End Limits.

(** * Rate and volume: claims C5 and C6 *)

Section RateVolume.

(** [set_rate] sends the rate shown to four decimals when the test of the
    limits lets it pass. *)
Lemma set_rate_sends (rate : float) (p : ChemyxPump) (i : unit_info) :
  UNIT_CONVERSIONS !! current_units p = Some i ->
  rate_ok p (rate * factor i)%float = true ->
  set_rate rate p
  = (Ok (fst (send_command ("set rate " +:+ PyFloat.format_4f rate) p)),
     snd (send_command ("set rate " +:+ PyFloat.format_4f rate) p)).
Proof.
  intros Hi Hok. unfold rate_ok in Hok.
  unfold set_rate, convert_to_base_units, rate_refusal, unit_entry.
  rewrite Hi. cbn zeta.
  destruct (send_command _ p) as [r p']. cbn [fst snd].
  destruct (min_rate p) as [lo|]; [|reflexivity].
  destruct (max_rate p) as [hi|]; [|reflexivity].
  unfold outside in Hok. apply negb_true_iff in Hok. by rewrite Hok.
Qed.

(** With a unit of the table [set_rate] raises nothing. *)
Lemma set_rate_returns (rate : float) (p : ChemyxPump) (i : unit_info) :
  UNIT_CONVERSIONS !! current_units p = Some i ->
  exists text, fst (set_rate rate p) = Ok text.
Proof.
  intros Hi.
  unfold set_rate, convert_to_base_units, rate_refusal, convert_from_base_units,
    unit_entry.
  rewrite Hi. cbn zeta.
  destruct (send_command _ p) as [r p'].
  destruct (min_rate p) as [lo|]; [|by eexists].
  destruct (max_rate p) as [hi|]; [|by eexists].
  destruct (_ || _); by eexists.
Qed.

(** C5: [set_rate] converts the rate from the current unit to base units by
    the factor of the unit; when both rate limits are set and the converted
    rate is below the minimum or above the maximum, it returns the message
    with both bounds divided by the factor and shown to four decimals, and
    sends nothing; otherwise (inside the limits, or a limit unset) it sends
    the rate. *)
Theorem C5_set_rate_checks_limits (rate : float) (p : ChemyxPump) (i : unit_info) :
  UNIT_CONVERSIONS !! current_units p = Some i ->
  let base := (rate * factor i)%float in
  let send := send_command ("set rate " +:+ PyFloat.format_4f rate) p in
  (forall lo hi,
      min_rate p = Some lo -> max_rate p = Some hi ->
      outside base lo hi = true ->
      set_rate rate p
      = (Ok ("Rate " +:+ PyFloat.float_repr rate
             +:+ " is outside pump limits ("
             +:+ PyFloat.format_4f (lo / factor i)%float +:+ " to "
             +:+ PyFloat.format_4f (hi / factor i)%float +:+ " "
             +:+ name i +:+ ")"),
         p))
  /\ (forall lo hi,
      min_rate p = Some lo -> max_rate p = Some hi ->
      outside base lo hi = false ->
      set_rate rate p = (Ok (fst send), snd send))
  /\ (min_rate p = None \/ max_rate p = None ->
      set_rate rate p = (Ok (fst send), snd send)).
Proof.
  intros Hi base send. subst base send.
  unfold set_rate, convert_to_base_units, rate_refusal, convert_from_base_units,
    unit_entry, outside. rewrite Hi. cbn zeta.
  destruct (send_command _ p) as [r p'] eqn:S. cbn [fst snd].
  repeat split.
  - intros lo hi -> -> ->. reflexivity.
  - intros lo hi -> -> ->. reflexivity.
  - intros [-> | H]; [reflexivity|]. rewrite H. by destruct (min_rate p).
Qed.


(** C5, the example of the claim: with limits 0.5 to 10.0 mL/min and the
    unit mL/hr, 601 is refused with the bounds 30.0000 and 600.0000 and
    nothing is sent; 600 is sent. *)
Lemma C5_witness :
  set_rate 601 rate_example
  = (Ok "Rate 601.0 is outside pump limits (30.0000 to 600.0000 mL/hr)",
     rate_example)
  /\ sent (snd (set_rate 600 rate_example)) = ["set rate 600.0000" +:+ PyStr.CR].
Proof.
  split.
  - exact (proj1 (C5_set_rate_checks_limits 601 rate_example
                    {| name := "mL/hr"; factor := (1 / 60)%float |} eq_refl)
             0.5%float 10%float eq_refl eq_refl eq_refl).
  - rewrite (proj1 (proj2 (C5_set_rate_checks_limits 600 rate_example
                    {| name := "mL/hr"; factor := (1 / 60)%float |} eq_refl))
               0.5%float 10%float eq_refl eq_refl eq_refl).
    reflexivity.
Defined.

(** ** The shape of a number shown to four decimals *)

Lemma digit_char_is_digit (d : Z) :
  0 <= d < 10 -> PyFloat.is_digit (PyFloat.digit_char d) = true.
Proof.
  intros H.
  assert (d = 0 \/ d = 1 \/ d = 2 \/ d = 3 \/ d = 4 \/ d = 5 \/ d = 6
          \/ d = 7 \/ d = 8 \/ d = 9) as Hd by lia.
  repeat (destruct Hd as [-> | Hd]; [reflexivity|]). by subst.
Qed.

Lemma mod10_digit (n : Z) :
  PyFloat.is_digit (PyFloat.digit_char (n mod 10)) = true.
Proof. apply digit_char_is_digit, Z.mod_pos_bound. lia. Qed.

Lemma pad4_shape (n : Z) :
  String.length (PyFloat.pad4 n) = 4%nat /\ all_digits (PyFloat.pad4 n) = true.
Proof.
  split; [reflexivity|]. unfold all_digits, PyFloat.pad4.
  cbn [list_ascii_of_string forallb]. by rewrite !mod10_digit.
Qed.

Lemma digits_go_shape (fuel : nat) :
  forall n acc,
    all_digits acc = true ->
    all_digits (PyFloat.digits_go fuel n acc) = true
    /\ (acc <> EmptyString -> PyFloat.digits_go fuel n acc <> EmptyString).
Proof.
  induction fuel as [|fuel IH]; intros n acc Hacc; [done|].
  cbn [PyFloat.digits_go].
  assert (all_digits (String (PyFloat.digit_char (n mod 10)) acc) = true) as H.
  { unfold all_digits in *. cbn [list_ascii_of_string forallb].
    by rewrite mod10_digit, Hacc. }
  destruct (n <? 10); [done|].
  destruct (IH (n / 10) _ H) as [H1 H2]. split; [exact H1|].
  intros _. by apply H2.
Qed.

Lemma digits_shape (n : Z) :
  all_digits (PyFloat.digits n) = true /\ PyFloat.digits n <> EmptyString.
Proof.
  unfold PyFloat.digits. cbn [PyFloat.digits_go].
  assert (all_digits (String (PyFloat.digit_char (n mod 10)) EmptyString) = true) as H.
  { unfold all_digits. cbn [list_ascii_of_string forallb].
    by rewrite mod10_digit. }
  destruct (n <? 10); [done|].
  destruct (digits_go_shape (Z.to_nat (Z.log2 n)) (n / 10) _ H) as [H1 H2].
  split; [exact H1 | by apply H2].
Qed.

(** A finite float shown to four decimals: a sign, digits, a point, four
    digits. *)
Lemma fixed4_shape (s : bool) (n : Z) :
  exists int_part frac_part,
    PyFloat.fixed4 s n
    = PyFloat.sign_text s +:+ int_part +:+ "." +:+ frac_part
    /\ String.length frac_part = 4%nat
    /\ all_digits frac_part = true
    /\ all_digits int_part = true
    /\ int_part <> EmptyString.
Proof.
  exists (PyFloat.digits (n / 10000)), (PyFloat.pad4 (n mod 10000)).
  destruct (pad4_shape (n mod 10000)) as [H1 H2].
  destruct (digits_shape (n / 10000)) as [H3 H4]. done.
Qed.

Lemma signed_volume_SF (volume : float) (mode : string) :
  Prim2SF (signed_volume volume mode)
  = if String.eqb mode "withdrawal" then SFopp (SFabs (Prim2SF volume))
    else SFabs (Prim2SF volume).
Proof.
  unfold signed_volume. destruct (String.eqb mode "withdrawal").
  - by rewrite opp_spec, abs_spec.
  - apply abs_spec.
Qed.

(** The limits of [set_volume] are tested on the magnitude. *)
Lemma abs_signed_volume (volume : float) (mode : string) :
  abs (signed_volume volume mode) = abs volume.
Proof.
  apply Prim2SF_inj. rewrite abs_spec, signed_volume_SF, abs_spec.
  destruct (String.eqb mode "withdrawal"); by destruct (Prim2SF volume).
Qed.

(** C6: [set_volume] takes the magnitude of the volume, negates it for the
    mode [withdrawal] and leaves it positive otherwise, and tests the
    magnitude against the volume limits when both are set; a volume inside
    them (or with a limit unset) is sent as [set volume] followed by the
    signed magnitude shown to four decimals. For a finite volume that text
    is a minus sign exactly for [withdrawal], digits, a point and exactly
    four digits. *)
Theorem C6_set_volume_signed_four_decimals (volume : float) (mode : string)
    (p : ChemyxPump) :
  let vol := signed_volume volume mode in
  let payload := "set volume " +:+ PyFloat.format_4f vol in
  (forall lo hi,
      min_volume p = Some lo -> max_volume p = Some hi ->
      outside (abs volume) lo hi = true ->
      set_volume volume mode p = (volume_message vol lo hi, p))
  /\ (forall lo hi,
      min_volume p = Some lo -> max_volume p = Some hi ->
      outside (abs volume) lo hi = false ->
      set_volume volume mode p = send_command payload p)
  /\ (min_volume p = None \/ max_volume p = None ->
      set_volume volume mode p = send_command payload p)
  /\ (is_finite volume = true ->
      exists int_part frac_part,
        PyFloat.format_4f vol
        = (if String.eqb mode "withdrawal" then "-" else "")
            +:+ int_part +:+ "." +:+ frac_part
        /\ String.length frac_part = 4%nat
        /\ all_digits frac_part = true
        /\ all_digits int_part = true
        /\ int_part <> EmptyString).
Proof.
  intros vol payload. subst vol payload.
  pose proof (abs_signed_volume volume mode) as Habs.
  unfold set_volume, outside.
  change (if String.eqb mode "withdrawal" then (- abs volume)%float
          else abs volume) with (signed_volume volume mode).
  rewrite Habs. repeat split.
  - intros lo hi -> -> H. by rewrite H.
  - intros lo hi -> -> H. by rewrite H.
  - intros [-> | H]; [reflexivity|]. rewrite H. by destruct (min_volume p).
  - intros Hfin. unfold PyFloat.format_4f. rewrite signed_volume_SF.
    unfold is_finite in Hfin.
    destruct (Prim2SF volume) as [s0| |  |s0 m e]; try discriminate;
      destruct (String.eqb mode "withdrawal"); cbn [SFopp SFabs negb];
      apply fixed4_shape.
Qed.

(** C6, the examples of the claim: what reaches the wire for the volume 2.0
    in each mode. *)
Lemma C6_witness :
  sent (snd (set_volume 2 "withdrawal" (pump_on (sound_port []))))
  = ["set volume -2.0000" +:+ PyStr.CR]
  /\ sent (snd (set_volume 2 "infusion" (pump_on (sound_port []))))
     = ["set volume 2.0000" +:+ PyStr.CR].
Proof.
  split.
  - rewrite (proj1 (proj2 (proj2
      (C6_set_volume_signed_four_decimals 2 "withdrawal"
         (pump_on (sound_port []))))) (or_introl eq_refl)).
    reflexivity.
  - rewrite (proj1 (proj2 (proj2
      (C6_set_volume_signed_four_decimals 2 "infusion"
         (pump_on (sound_port []))))) (or_introl eq_refl)).
    reflexivity.
Defined.

End RateVolume.

(** * What reaches the wire: claims C7 and C8 *)

Section Wire.

Lemma silent_ret {A} (a : A) : silent (io_ret a).
Proof. by intros s. Qed.

Lemma silent_bind {A B} (m : io A) (k : A -> io B) :
  silent m -> (forall a, silent (k a)) -> silent (io_bind m k).
Proof.
  intros Hm Hk s. unfold io_bind. destruct (Hm s) as [H1 H2].
  destruct (m s) as [[a|e] s']; cbn [snd] in *; [|done].
  destruct (Hk a s') as [H3 H4]. by rewrite H3, H4.
Qed.

Lemma silent_guarded {A} (op : port_op) (body : io A) :
  silent body -> silent (guarded op body).
Proof.
  intros H s. unfold guarded. destruct (faults s op); [done|apply H].
Qed.

Lemma silent_flush : silent flush.
Proof. apply silent_guarded. by intros s. Qed.

Lemma silent_in_waiting : silent in_waiting.
Proof. apply silent_guarded. by intros s. Qed.

Lemma silent_readline : silent readline.
Proof.
  intros s. unfold readline.
  destruct (in_buffer s) as [|[raw|e] rest]; [|done..].
  by destruct (late_line s).
Qed.

Lemma silent_drain (fuel : nat) : forall acc, silent (drain fuel acc).
Proof.
  induction fuel as [|fuel IH]; intros acc; [apply silent_ret|].
  cbn [drain]. apply silent_bind; [apply silent_in_waiting|]. intros n.
  destruct (n =? 0); [apply silent_ret|].
  apply silent_bind; [apply silent_readline|]. intros raw.
  destruct (PyStr.truthy (PyStr.strip raw)); apply IH.
Qed.

Lemma silent_drain_all : silent drain_all.
Proof. intros s. unfold drain_all. apply silent_drain. Qed.

Lemma silent_read_once_more (responses : list string) :
  silent (read_once_more responses).
Proof.
  destruct responses; [|apply silent_ret].
  apply silent_bind; [apply silent_readline|]. intros raw. apply silent_ret.
Qed.

(** On an open port that accepts the write, the framed command is added to
    the wire, whatever the device answers. *)
Lemma send_command_sent (command : string) (p : ChemyxPump) (conn : Serial) :
  connection p = Some conn ->
  is_open conn = true ->
  faults conn OpResetInput = None ->
  faults conn OpWrite = None ->
  sent (snd (send_command command p)) = (wire conn ++ [frame command])%list.
Proof.
  intros Hc Ho HR HW. unfold send_command. rewrite Hc, Ho. cbn [negb].
  assert (wire (snd (exchange command conn)) = (wire conn ++ [frame command])%list)
    as Hwire.
  { unfold exchange.
    erewrite io_bind_ok; [|unfold reset_input_buffer; by rewrite guarded_ok].
    destruct (write_ok (frame command) (with_in_buffer conn []) HW)
      as (s2 & Hw & _ & Hw2).
    change (wire (with_in_buffer conn [])) with (wire conn) in Hw2.
    erewrite io_bind_ok by exact Hw. rewrite <- Hw2.
    apply silent_bind; [apply silent_flush|]. intros _.
    apply silent_bind; [apply silent_drain_all|]. intros responses.
    apply silent_bind; [apply silent_read_once_more|]. intros r.
    apply silent_ret. }
  destruct (exchange command conn) as [[r|e] conn']; exact Hwire.
Qed.

(** Without an open connection nothing is sent. *)
Lemma send_command_closed (command : string) (p : ChemyxPump) :
  connection p = None -> sent (snd (send_command command p)) = [].
Proof. intros H. unfold send_command. rewrite H. unfold sent. cbn. by rewrite H. Qed.

Lemma append_assoc (a b c : string) : (a +:+ b) +:+ c = a +:+ (b +:+ c).
Proof.
  induction a as [|x a IH]; [reflexivity|].
  change (String x ((a +:+ b) +:+ c) = String x (a +:+ (b +:+ c))).
  by rewrite IH.
Qed.

Lemma append_empty_r (a : string) : a +:+ EmptyString = a.
Proof.
  induction a as [|x a IH]; [reflexivity|].
  change (String x (a +:+ EmptyString) = String x a). by rewrite IH.
Qed.

Lemma hexw2_command_text (diameter volume rate : float) (delay : pynum)
    (mode : string) (start_immediately : bool) :
  hexw2_command diameter volume rate delay mode start_immediately
  = hexw2_text diameter volume rate delay mode start_immediately.
Proof.
  unfold hexw2_command, hexw2_text.
  destruct (String.eqb mode "withdrawal"), start_immediately;
    change (int_str 1) with "1"; change (int_str 0) with "0";
    rewrite ?append_assoc, ?append_empty_r; reflexivity.
Qed.

(** C8, amended: only [set_rate] and [set_volume] show their number to four
    decimals. [set_all_parameters] builds
    [hexw2 0 {mode_bit} {diameter} {|volume|} {rate} {delay}], with [ start]
    appended when asked and mode_bit 1 for withdrawal else 0, each number in
    Python's default text; [set_diameter], [set_time], [set_delay] and
    [set_prime_rate] use the default text too. The statement is about what
    an open port that accepts the write receives. *)
Theorem C8_wire_formats (p : ChemyxPump) (conn : Serial) :
  connection p = Some conn ->
  is_open conn = true ->
  faults conn OpResetInput = None ->
  faults conn OpWrite = None ->
  (forall diameter volume rate delay mode start_immediately,
      sent (snd (set_all_parameters diameter volume rate delay mode
                   start_immediately p))
      = (wire conn
         ++ [frame (hexw2_text diameter volume rate delay mode
                      start_immediately)])%list)
  /\ (forall rate i,
      UNIT_CONVERSIONS !! current_units p = Some i ->
      rate_ok p (rate * factor i)%float = true ->
      sent (snd (set_rate rate p))
      = (wire conn ++ [frame ("set rate " +:+ PyFloat.format_4f rate)])%list)
  /\ (forall volume mode,
      volume_ok p volume = true ->
      sent (snd (set_volume volume mode p))
      = (wire conn
         ++ [frame ("set volume "
                    +:+ PyFloat.format_4f (signed_volume volume mode))])%list)
  /\ (forall diameter,
      sent (snd (set_diameter diameter p))
      = (wire conn
         ++ [frame ("set diameter " +:+ PyFloat.float_repr diameter)])%list)
  /\ (forall time,
      sent (snd (set_time time p))
      = (wire conn ++ [frame ("set time " +:+ PyFloat.float_repr time)])%list)
  /\ (forall delay,
      sent (snd (set_delay delay p))
      = (wire conn ++ [frame ("set delay " +:+ PyFloat.float_repr delay)])%list)
  /\ (forall rate,
      sent (snd (set_prime_rate rate p))
      = (wire conn
         ++ [frame ("set primerate " +:+ PyFloat.float_repr rate)])%list).
Proof.
  intros Hc Ho HR HW.
  pose proof (fun command => send_command_sent command p conn Hc Ho HR HW) as S.
  repeat split.
  - intros. unfold set_all_parameters. by rewrite hexw2_command_text.
  - intros rate i Hi Hok. rewrite (set_rate_sends rate p i Hi Hok). apply S.
  - intros volume mode Hok. unfold volume_ok in Hok.
    unfold set_volume.
    change (if String.eqb mode "withdrawal" then (- abs volume)%float
            else abs volume) with (signed_volume volume mode).
    rewrite abs_signed_volume.
    destruct (min_volume p) as [lo|]; [destruct (max_volume p) as [hi|]|];
      try apply S.
    unfold outside in Hok. apply negb_true_iff in Hok. rewrite Hok. apply S.
  - intros. apply S.
  - intros. apply S.
  - intros. apply S.
  - intros. apply S.
Qed.

(** C8, the example of the claim as the code builds it. *)
Lemma C8_witness :
  sent (snd (set_all_parameters 23.04 1.2 3 (PyInt 0) "infusion" false
               (pump_on (sound_port []))))
  = ["hexw2 0 0 23.04 1.2 3.0 0" +:+ PyStr.CR].
Proof.
  rewrite (proj1 (C8_wire_formats (pump_on (sound_port [])) (sound_port [])
                    eq_refl eq_refl eq_refl eq_refl)).
  reflexivity.
Defined.

(** C8 as stated fails: the composite command of the example carries
    [23.04 1.2 3.0], not [23.0400 1.2000 3.0000], and [set_diameter] sends
    [23.04]. *)
Lemma C8_counterexample :
  sent (snd (set_all_parameters 23.04 1.2 3 (PyInt 0) "infusion" false
               (pump_on (sound_port []))))
  <> ["hexw2 0 0 23.0400 1.2000 3.0000 0" +:+ PyStr.CR]
  /\ sent (snd (set_diameter 23.04 (pump_on (sound_port []))))
     = ["set diameter 23.04" +:+ PyStr.CR].
Proof.
  split; [|reflexivity]. intros H. vm_compute in H. discriminate H.
Qed.

(** ** [set_units] *)

Lemma set_units_rejects (unit_code : Z) (p : ChemyxPump) :
  in_range4 unit_code = false ->
  set_units unit_code p = ("Error: Unit code must be 0-3", p).
Proof. intros H. unfold set_units. by rewrite H. Qed.

Lemma set_units_accepts (unit_code : Z) (p : ChemyxPump) :
  in_range4 unit_code = true ->
  let response := fst (send_command ("set units " +:+ int_str unit_code) p) in
  fst (set_units unit_code p) = response
  /\ current_units (snd (set_units unit_code p))
     = if PyStr.startswith response "Error" then current_units p
       else unit_code.
Proof.
  intros H. unfold set_units. rewrite H. cbn [negb].
  pose proof (send_command_frame ("set units " +:+ int_str unit_code) p)
    as (_ & _ & _ & _ & Hu).
  destruct (send_command _ p) as [response p']. cbn [fst snd] in *.
  by destruct (PyStr.startswith response "Error").
Qed.

(** C7 fails on the code: the guard of [set_units] looks for the prefix
    [Error], and the result of a failed exchange starts with
    [Command failed]. With a port whose [write] raises, [set_units 1]
    returns the failure, nothing has reached the wire, and the stored unit
    has changed from 0 to 1. *)
Theorem C7_set_units_updates_on_failed_exchange :
  let conn :=
    {| is_open := true; wire := []; in_buffer := []; late_line := timed_out;
       script := []; faults := write_fails "device unplugged" |} in
  let p := pump_on conn in
  current_units p = 0
  /\ fst (set_units 1 p) = "Command failed: device unplugged"
  /\ sent (snd (set_units 1 p)) = []
  /\ current_units (snd (set_units 1 p)) = 1.
Proof. repeat split; reflexivity. Qed.

End Wire.

(** * The stored unit: claim C10 *)

Section Units.

Lemma units_send (command : string) (p : ChemyxPump) :
  current_units (snd (send_command command p)) = current_units p.
Proof. apply send_command_frame. Qed.

Lemma units_set_rate (rate : float) (p : ChemyxPump) :
  current_units (snd (set_rate rate p)) = current_units p.
Proof.
  unfold set_rate.
  destruct (convert_to_base_units rate (current_units p)) as [b|e].
  - destruct (rate_refusal rate b p) as [[m|]|e].
    + reflexivity.
    + pose proof (units_send ("set rate " +:+ PyFloat.format_4f rate) p) as H.
      by destruct (send_command _ p).
    + by destruct (is_ValueError e).
  - by destruct (is_ValueError e).
Qed.

Lemma units_set_volume (volume : float) (mode : string) (p : ChemyxPump) :
  current_units (snd (set_volume volume mode p)) = current_units p.
Proof.
  unfold set_volume.
  destruct (min_volume p); [destruct (max_volume p)|]; try apply units_send.
  destruct (_ || _); [reflexivity | apply units_send].
Qed.

Lemma units_store_limits (parts : list string) (p : ChemyxPump) :
  current_units (snd (store_limits parts p)) = current_units p.
Proof.
  unfold store_limits, order_rates, order_volumes.
  destruct (4 <=? length parts)%nat; [|reflexivity].
  repeat (match goal with
          | |- context [match float_at ?l ?i with _ => _ end] =>
              destruct (float_at l i)
          end; cbn; [|reflexivity]).
  repeat (match goal with
          | |- context [if ?b then _ else _] => destruct b; cbn
          end).
  all: reflexivity.
Qed.

Lemma units_parse_limits (p : ChemyxPump) :
  current_units (snd (parse_limits p)) = current_units p.
Proof.
  unfold parse_limits, get_limits.
  pose proof (units_send "read limit parameter" p) as H.
  destruct (send_command _ p) as [r p1]. cbn [snd] in H.
  by rewrite units_store_limits.
Qed.

Lemma units_clear_communication (p : ChemyxPump) :
  current_units (clear_communication p) = current_units p.
Proof.
  unfold clear_communication. destruct (connection p) as [conn|]; [|done].
  destruct (negb (is_open conn)); [done|].
  by destruct ((reset_input_buffer;;; reset_output_buffer) conn).
Qed.

Lemma units_connect (opened : result Serial) (p : ChemyxPump) :
  current_units (snd (connect opened p)) = current_units p.
Proof.
  unfold connect. destruct opened as [conn|e]; [|reflexivity].
  assert (current_units (clear_communication (with_connection p (Some conn)))
          = current_units p) as H0
    by exact (units_clear_communication (with_connection p (Some conn))).
  set (p0 := clear_communication _) in *.
  destruct (connection p0) as [conn'|]; [|exact H0].
  destruct (is_open conn'); [|exact H0].
  pose proof (units_send "status" p0) as H1.
  destruct (send_command "status" p0) as [r p1]. cbn [snd] in H1.
  pose proof (units_parse_limits p1) as H2.
  destruct (parse_limits p1) as [b p2]. cbn [snd] in *. congruence.
Qed.

Lemma units_view_parameter (param : string) (p : ChemyxPump) :
  current_units (snd (view_parameter param p)) = current_units p.
Proof.
  unfold view_parameter.
  pose proof (units_send ("read " +:+ param) p) as H.
  destruct (send_command _ p) as [r p1]. cbn [snd] in H.
  destruct (contains _ _); [|exact H]. by rewrite units_send.
Qed.

(** [set_units] is the only call that changes the stored unit, and it
    stores a code of the table. *)
Lemma run_units (c : call) (p : ChemyxPump) :
  current_units (run c p) = current_units p
  \/ exists unit_code,
       c = SetUnits unit_code /\ in_range4 unit_code = true
       /\ current_units (run c p) = unit_code.
Proof.
  destruct c; cbn [run];
    try (left;
         first [ apply units_send | apply units_set_rate | apply units_set_volume
               | apply units_connect | apply units_parse_limits
               | apply units_view_parameter | apply units_clear_communication
               | reflexivity ]).
  - left. unfold disconnect. destruct (connection p) as [conn|]; [|done].
    by destruct (is_open conn).
  - destruct (in_range4 unit_code) eqn:R.
    + destruct (set_units_accepts unit_code p R) as [_ H]. rewrite H.
      destruct (PyStr.startswith _ _); [by left|]. right. by exists unit_code.
    + left. by rewrite set_units_rejects.
Qed.

Lemma table_defined (u : Z) :
  in_range4 u = true -> is_Some (UNIT_CONVERSIONS !! u).
Proof.
  unfold in_range4. intros H.
  assert (u = 0 \/ u = 1 \/ u = 2 \/ u = 3) as [-> | [-> | [-> | ->]]] by lia;
    by eexists.
Qed.

Lemma reachable_units (p : ChemyxPump) :
  reachable p -> in_range4 (current_units p) = true.
Proof.
  induction 1 as [port baudrate | c p _ IH]; [reflexivity|].
  destruct (run_units c p) as [-> | (u & _ & Hu & ->)]; assumption.
Qed.

(** C10: in every state reached from a fresh pump by calls of its methods,
    the stored unit is one of 0, 1, 2, 3, so the table has an entry for it:
    the two conversions return a value, [set_rate] raises nothing, and the
    unit has a name. *)
Theorem C10_stored_unit_in_table (p : ChemyxPump) :
  reachable p ->
  in_range4 (current_units p) = true
  /\ is_Some (UNIT_CONVERSIONS !! current_units p)
  /\ (forall value, exists r,
        convert_to_base_units value (current_units p) = Ok r)
  /\ (forall value, exists r,
        convert_from_base_units value (current_units p) = Ok r)
  /\ (forall rate, exists text, fst (set_rate rate p) = Ok text)
  /\ get_current_units p <> "unknown".
Proof.
  intros Hr. pose proof (reachable_units p Hr) as Hu.
  destruct (table_defined _ Hu) as [i Hi].
  split; [exact Hu|]. split; [by exists i|].
  unfold convert_to_base_units, convert_from_base_units, unit_entry,
    get_current_units. rewrite Hi.
  split; [by eexists|]. split; [by eexists|]. split.
  - intros rate. exact (set_rate_returns rate p i Hi).
  - unfold in_range4 in Hu.
    assert (current_units p = 0 \/ current_units p = 1 \/ current_units p = 2
            \/ current_units p = 3) as Hc by lia.
    destruct Hc as [E | [E | [E | E]]]; rewrite E in Hi;
      vm_compute in Hi; injection Hi as <-; discriminate.
Qed.

(** C10 on a run: connect, select the unit 3, try the code 7. *)
Lemma C10_witness :
  let p := run (SetUnits 7)
             (run (SetUnits 3)
                (run (Connect (Ok (sound_port [])))
                   (init "/dev/ttyUSB0" 38400))) in
  in_range4 (current_units p) = true
  /\ is_Some (UNIT_CONVERSIONS !! current_units p)
  /\ (forall value, exists r,
        convert_to_base_units value (current_units p) = Ok r)
  /\ (forall value, exists r,
        convert_from_base_units value (current_units p) = Ok r)
  /\ (forall rate, exists text, fst (set_rate rate p) = Ok text)
  /\ get_current_units p <> "unknown".
Proof.
  apply C10_stored_unit_in_table.
  do 3 apply reachable_run. apply reachable_init.
Defined.

End Units.

(** * Rounding: claim C3

    The binary64 operations are specified by [SFmul] and [SFdiv]; the
    lemmas below bound their rounding error in the normal range, in integer
    arithmetic on significands. *)

Section Rounding.

Lemma digits2_pos_size (p : positive) : digits2_pos p = Pos.size p.
Proof. induction p as [p IH|p IH|]; cbn; by rewrite ?IH. Qed.

Lemma digits2_bounds (p : positive) :
  2 ^ (Z.pos (digits2_pos p) - 1) <= Z.pos p < 2 ^ Z.pos (digits2_pos p).
Proof.
  rewrite digits2_pos_size.
  pose proof (Pos.size_gt p) as Hgt. pose proof (Pos.size_le p) as Hle.
  assert (Z.pos (2 ^ Pos.size p) = 2 ^ Z.pos (Pos.size p)) as E
    by apply Pos2Z.inj_pow.
  assert (2 ^ Z.pos (Pos.size p) = 2 * 2 ^ (Z.pos (Pos.size p) - 1)) as E2.
  { rewrite <- Z.pow_succ_r by lia. f_equal. lia. }
  split; lia.
Qed.

Lemma digits2_unique (p : positive) (k : Z) :
  2 ^ (k - 1) <= Z.pos p < 2 ^ k -> Z.pos (digits2_pos p) = k.
Proof.
  intros [H1 H2]. pose proof (digits2_bounds p) as [B1 B2].
  set (d := Z.pos (digits2_pos p)) in *.
  assert (0 < k) as Hk.
  { destruct (Z.lt_ge_cases 0 k) as [|Hk0]; [done|].
    rewrite (Z.pow_neg_r 2 (k - 1)) in H1 by lia.
    assert (2 ^ k <= 1); [|lia].
    destruct (Z.eq_dec k 0) as [->|]; [done|].
    rewrite Z.pow_neg_r by lia. lia. }
  destruct (Z.lt_trichotomy d k) as [Hlt | [Heq | Hgt]]; [|done|].
  - assert (2 ^ d <= 2 ^ (k - 1)) by (apply Z.pow_le_mono_r; lia). lia.
  - assert (2 ^ k <= 2 ^ (d - 1)) by (apply Z.pow_le_mono_r; lia). lia.
Qed.

Ltac bool_fact H :=
  match type of H with
  | true = true <-> ?P =>
      let F := fresh "F" in assert P as F by (apply H; reflexivity); clear H
  | false = true <-> ?P =>
      let F := fresh "F" in
      assert (~ P) as F by (intros F; apply H in F; discriminate); clear H
  end.

Ltac bool_goal :=
  match goal with
  | |- true = true <-> _ => split; [intros _ | reflexivity]
  | |- false = true <-> _ => split; [discriminate | intros; exfalso]
  end.

Lemma shr_1_ok (N D : Z) (mrs : shr_record) :
  rec_ok N D mrs -> rec_ok N (2 * D) (shr_1 mrs).
Proof.
  intros (HD & HN & Hm & Hr & Hs). destruct mrs as [m r s]. cbn in Hm, Hr, Hs.
  pose proof (Z.mod_pos_bound N D HD) as Hmod.
  assert (N / (2 * D) = m / 2) as Hq.
  { rewrite Hm. rewrite (Z.mul_comm 2 D). by rewrite Z.div_div by lia. }
  assert (N mod (2 * D) = N mod D + D * (m mod 2)) as Hrem.
  { rewrite Hm. rewrite (Z.mul_comm 2 D). apply Z.rem_mul_r; lia. }
  assert (0 <= m) as Hm0 by (rewrite Hm; apply Z.div_pos; lia).
  unfold rec_ok. rewrite Hq, Hrem. clear Hq Hrem Hm.
  assert (m / 2 = shr_m (shr_1 {| shr_m := m; shr_r := r; shr_s := s |})
          /\ (m mod 2 = 0 \/ m mod 2 = 1)
          /\ (shr_r (shr_1 {| shr_m := m; shr_r := r; shr_s := s |}) = true
              <-> m mod 2 = 1)
          /\ shr_s (shr_1 {| shr_m := m; shr_r := r; shr_s := s |}) = r || s)
    as (Hh & Hb & Hr' & Hs').
  { destruct m as [|[p|p|]|p]; try lia; cbn [shr_1 shr_m shr_r shr_s].
    - change (0 / 2) with 0. change (0 mod 2) with 0.
      repeat split; auto; discriminate.
    - assert (Z.pos p~1 / 2 = Z.pos p /\ Z.pos p~1 mod 2 = 1) as [-> ->].
      { rewrite Pos2Z.inj_xI. split; symmetry.
        + apply (Z.div_unique _ 2 _ 1); lia.
        + apply (Z.mod_unique _ 2 (Z.pos p) 1); lia. }
      repeat split; auto.
    - assert (Z.pos p~0 / 2 = Z.pos p /\ Z.pos p~0 mod 2 = 0) as [-> ->].
      { rewrite Pos2Z.inj_xO. split; symmetry.
        + apply (Z.div_unique _ 2 _ 0); lia.
        + apply (Z.mod_unique _ 2 (Z.pos p) 0); lia. }
      repeat split; auto; discriminate.
    - change (1 / 2) with 0. change (1 mod 2) with 1.
      repeat split; auto. }
  rewrite <- Hh, Hs'. clear Hh Hs'.
  split; [lia|]. split; [lia|]. split; [reflexivity|].
  rewrite Hr'. clear Hr'.
  destruct r, s; bool_fact Hr; bool_fact Hs; cbn [orb]; split;
    try bool_goal; try lia.
Qed.

Lemma pow2_xO (p : positive) : 2 ^ Z.pos p~0 = 2 ^ Z.pos p * 2 ^ Z.pos p.
Proof. rewrite <- Z.pow_add_r by lia. f_equal. lia. Qed.

Lemma pow2_xI (p : positive) : 2 ^ Z.pos p~1 = 2 * (2 ^ Z.pos p * 2 ^ Z.pos p).
Proof.
  rewrite <- Z.pow_add_r by lia. rewrite <- Z.pow_succ_r by lia. f_equal. lia.
Qed.

Lemma iter_shr_ok (N : Z) (p : positive) :
  forall D mrs,
    rec_ok N D mrs -> rec_ok N (D * 2 ^ Z.pos p) (SpecFloat.iter_pos shr_1 p mrs).
Proof.
  induction p as [p IH|p IH|]; intros D mrs H; cbn [SpecFloat.iter_pos].
  - apply shr_1_ok in H. apply IH in H. apply IH in H.
    replace (D * 2 ^ Z.pos p~1) with (2 * D * 2 ^ Z.pos p * 2 ^ Z.pos p); [done|].
    rewrite pow2_xI. lia.
  - apply IH in H. apply IH in H.
    replace (D * 2 ^ Z.pos p~0) with (D * 2 ^ Z.pos p * 2 ^ Z.pos p); [done|].
    rewrite pow2_xO. lia.
  - apply shr_1_ok in H. by rewrite Z.mul_comm.
Qed.

(** Shifting by [n >= 0] divides by [2^n]. *)
Lemma shr_ok (N D : Z) (mrs : shr_record) (e n : Z) :
  0 <= n -> rec_ok N D mrs ->
  rec_ok N (D * 2 ^ n) (fst (shr mrs e n)) /\ snd (shr mrs e n) = e + n.
Proof.
  intros Hn H. unfold shr. destruct n as [|p|p]; [| |lia]; cbn [fst snd].
  - split; [|lia]. by rewrite Z.mul_1_r.
  - split; [|done]. by apply iter_shr_ok.
Qed.

(** Rounding to nearest, ties to even, is within half a unit. *)
Lemma round_nearest_even_ok (N D : Z) (mrs : shr_record) :
  rec_ok N D mrs ->
  let R := round_nearest_even (shr_m mrs) (loc_of_shr_record mrs) in
  (R = N / D \/ R = N / D + 1) /\ - D <= 2 * (R * D - N) <= D.
Proof.
  intros (HD & HN & Hm & Hr & Hs). destruct mrs as [m r s].
  cbn in Hm, Hr, Hs. cbn [shr_m loc_of_shr_record].
  pose proof (Z.mod_pos_bound N D HD) as Hmod.
  pose proof (Z.div_mod N D ltac:(lia)) as Hdm. rewrite <- Hm in *.
  destruct r, s; bool_fact Hr; bool_fact Hs; cbn [round_nearest_even];
    try (destruct (Z.even m)); split; try lia; nia.
Qed.

Lemma shr_m_of_loc (m : Z) (l : location) : shr_m (shr_record_of_loc m l) = m.
Proof. by destruct l as [|[]]. Qed.

Lemma fexp_normal (k : Z) : -1074 <= k - 53 -> fexp prec emax k = k - 53.
Proof. intros H. unfold fexp, SpecFloat.emin, prec, emax. lia. Qed.

(** Rounding a significand of at least 53 bits in the normal range: the
    result is a normal float within half a unit in the last place. [N / D]
    is the exact significand, of which [m] is the integer part and [l] the
    position of the rest. *)
Lemma round_aux_normal (s : bool) (m e : Z) (l : location) (N D : Z) :
  rec_ok N D (shr_record_of_loc m l) ->
  let d := Zdigits2 m in
  0 < m -> 53 <= d -> -1074 <= d + e - 53 -> d + e - 52 <= 971 ->
  exists m' e',
    binary_round_aux prec emax s m e l = S754_finite s m' e'
    /\ 2 ^ 52 <= Z.pos m' < 2 ^ 53
    /\ (e' = e + d - 53 \/ e' = e + d - 52)
    /\ - (D * 2 ^ (d - 53))
       <= 2 * (Z.pos m' * 2 ^ (e' - (e + d - 53)) * (D * 2 ^ (d - 53)) - N)
       <= D * 2 ^ (d - 53).
Proof.
  intros Hrec d Hm Hd Hlo Hhi.
  assert (m = N / D) as HmN.
  { destruct Hrec as (_ & _ & H & _). by rewrite shr_m_of_loc in H. }
  assert (2 ^ (d - 1) <= m < 2 ^ d) as Hbits.
  { subst d. destruct m as [|p|p]; try lia. apply digits2_bounds. }
  set (n := d - 53) in *.
  unfold binary_round_aux, shr_fexp. fold d.
  rewrite (fexp_normal (d + e)) by lia.
  replace (d + e - 53 - e) with n by lia.
  destruct (shr_ok N D (shr_record_of_loc m l) e n ltac:(lia) Hrec) as [Hrec1 He1].
  destruct (shr (shr_record_of_loc m l) e n) as [mrs1 e1]. cbn [fst snd] in *.
  subst e1.
  pose proof (round_nearest_even_ok N (D * 2 ^ n) mrs1 Hrec1) as [HR Herr].
  cbn zeta in HR, Herr.
  set (R := round_nearest_even (shr_m mrs1) (loc_of_shr_record mrs1)) in *.
  assert (0 < D) as HD by apply Hrec.
  assert (0 < 2 ^ n) as Hpn by (apply Z.pow_pos_nonneg; lia).
  assert (N / (D * 2 ^ n) = m / 2 ^ n) as Hm1.
  { rewrite HmN. by rewrite Z.div_div by lia. }
  assert (2 ^ 52 <= m / 2 ^ n < 2 ^ 53) as Hm1b.
  { assert (2 ^ (d - 1) = 2 ^ n * 2 ^ 52) as E1.
    { rewrite <- Z.pow_add_r by lia. f_equal. lia. }
    assert (2 ^ d = 2 ^ n * 2 ^ 53) as E2.
    { rewrite <- Z.pow_add_r by lia. f_equal. lia. }
    split.
    - apply Z.div_le_lower_bound; lia.
    - apply Z.div_lt_upper_bound; lia. }
  rewrite Hm1 in HR.
  assert (2 ^ 52 <= R <= 2 ^ 53) as HRb by lia.
  replace (shr_record_of_loc R loc_Exact)
    with {| shr_m := R; shr_r := false; shr_s := false |} by reflexivity.
  destruct (Z.eq_dec R (2 ^ 53)) as [E | NE].
  - rewrite E. change (Zdigits2 (2 ^ 53)) with 54.
    rewrite (fexp_normal (54 + (e + n))) by lia.
    replace (54 + (e + n) - 53 - (e + n)) with 1 by lia.
    cbn [shr SpecFloat.iter_pos shr_1].
    change (2 ^ 53) with 9007199254740992. cbn [shr_m].
    assert ((e + n + 1 <=? emax - prec) = true) as ->.
    { unfold emax, prec. lia. }
    eexists _, _. split; [reflexivity|].
    split; [done|]. split; [right; lia|].
    replace (e + n + 1 - (e + d - 53)) with 1 by lia.
    change (4503599627370496 * 2 ^ 1) with 9007199254740992.
    change (2 ^ 53) with 9007199254740992 in E. rewrite <- E. lia.
  - destruct R as [|pR|pR]; try lia.
    assert (Zdigits2 (Z.pos pR) = 53) as ->.
    { cbn [Zdigits2]. apply digits2_unique. lia. }
    rewrite (fexp_normal (53 + (e + n))) by lia.
    replace (53 + (e + n) - 53 - (e + n)) with 0 by lia.
    cbn [shr shr_m].
    assert ((e + n <=? emax - prec) = true) as ->.
    { unfold emax, prec. lia. }
    exists pR, (e + n). split; [reflexivity|].
    split; [lia|]. split; [left; lia|].
    replace (e + n - (e + d - 53)) with 0 by lia.
    rewrite Z.pow_0_r, Z.mul_1_r. lia.
Qed.

Lemma exact_rec_ok (m : Z) :
  0 <= m -> rec_ok m 1 (shr_record_of_loc m loc_Exact).
Proof.
  intros H. unfold rec_ok. cbn [shr_record_of_loc shr_m shr_r shr_s].
  rewrite Z.div_1_r, Z.mod_1_r. repeat split; try lia; try discriminate.
Qed.

(** The product of two normal floats, in the normal range. *)
Lemma mul_normal (mx mF : positive) (ex eF : Z) :
  2 ^ 52 <= Z.pos mx < 2 ^ 53 -> 2 ^ 52 <= Z.pos mF < 2 ^ 53 ->
  -1074 <= ex + eF + 52 -> ex + eF + 54 <= 971 ->
  exists my ey n k,
    SFmul prec emax (S754_finite false mx ex) (S754_finite false mF eF)
    = S754_finite false my ey
    /\ 2 ^ 52 <= Z.pos my < 2 ^ 53
    /\ (n = 52 \/ n = 53) /\ (k = 0 \/ k = 1)
    /\ ey = ex + eF + n + k
    /\ - 2 ^ n <= 2 * (Z.pos my * 2 ^ k * 2 ^ n - Z.pos mx * Z.pos mF) <= 2 ^ n.
Proof.
  intros Hx HF Hlo Hhi. cbn [SFmul xorb].
  assert (2 ^ 104 <= Z.pos (mx * mF) < 2 ^ 106) as HP.
  { rewrite Pos2Z.inj_mul.
    change (2 ^ 104) with (2 ^ 52 * 2 ^ 52).
    change (2 ^ 106) with (2 ^ 53 * 2 ^ 53). nia. }
  pose proof (digits2_bounds (mx * mF)) as Hd.
  set (d := Z.pos (digits2_pos (mx * mF))) in *.
  assert (d = 105 \/ d = 106) as Hd'.
  { destruct (Z.lt_ge_cases (Z.pos (mx * mF)) (2 ^ 105)) as [Hlt | Hge].
    - left. apply digits2_unique. change (105 - 1) with 104. lia.
    - right. apply digits2_unique. change (106 - 1) with 105. lia. }
  destruct (round_aux_normal false (Z.pos (mx * mF)) (ex + eF) loc_Exact
              (Z.pos (mx * mF)) 1 (exact_rec_ok (Z.pos (mx * mF)) ltac:(lia))
              ltac:(lia))
    as (my & ey & -> & Hmy & Hey & Herr);
    fold d; try (cbn [Zdigits2]; fold d; lia).
  cbn [Zdigits2] in Hey, Herr. fold d in Hey, Herr.
  rewrite Z.mul_1_l in Herr. rewrite Pos2Z.inj_mul in Herr.
  exists my, ey, (d - 53), (ey - (ex + eF + d - 53)).
  split; [reflexivity|]. split; [exact Hmy|].
  split; [lia|]. split; [lia|]. split; [lia|]. exact Herr.
Qed.

Lemma new_location_ok (N D : Z) :
  0 < D -> 0 <= N ->
  rec_ok N D (shr_record_of_loc (N / D) (new_location D (N mod D))).
Proof.
  intros HD HN. pose proof (Z.mod_pos_bound N D HD) as Hmod.
  unfold rec_ok. rewrite shr_m_of_loc.
  split; [done|]. split; [done|]. split; [done|].
  unfold new_location, new_location_even, new_location_odd.
  destruct (Z.even D) eqn:Ev.
  - destruct (Z.eqb_spec (N mod D) 0) as [E | NE];
      cbn [shr_record_of_loc shr_r shr_s].
    + split; bool_goal; lia.
    + destruct (Z.compare_spec (2 * (N mod D)) D);
        cbn [shr_record_of_loc shr_r shr_s]; split; bool_goal; lia.
  - assert (Z.odd D = true) as Hodd by (by rewrite <- Z.negb_even, Ev).
    apply Z.odd_spec in Hodd as [k Hk].
    destruct (Z.eqb_spec (N mod D) 0) as [E | NE];
      cbn [shr_record_of_loc shr_r shr_s].
    + split; bool_goal; lia.
    + destruct (Z.compare_spec (2 * (N mod D) + 1) D);
        cbn [shr_record_of_loc shr_r shr_s]; split; bool_goal; lia.
Qed.

(** The quotient of two normal floats, in the normal range. *)
Lemma div_normal (my mF : positive) (ey eF : Z) :
  2 ^ 52 <= Z.pos my < 2 ^ 53 -> 2 ^ 52 <= Z.pos mF < 2 ^ 53 ->
  -1074 <= ey - eF - 53 -> ey - eF - 51 <= 971 ->
  exists mz ez n k,
    SFdiv prec emax (S754_finite false my ey) (S754_finite false mF eF)
    = S754_finite false mz ez
    /\ 2 ^ 52 <= Z.pos mz < 2 ^ 53
    /\ (n = 0 \/ n = 1) /\ (k = 0 \/ k = 1)
    /\ ez = ey - eF - 53 + n + k
    /\ - (Z.pos mF * 2 ^ n)
       <= 2 * (Z.pos mz * 2 ^ k * (Z.pos mF * 2 ^ n) - Z.pos my * 2 ^ 53)
       <= Z.pos mF * 2 ^ n.
Proof.
  intros Hy HF Hlo Hhi. cbn [SFdiv xorb]. unfold SFdiv_core_binary.
  cbn [Zdigits2].
  rewrite (digits2_unique my 53), (digits2_unique mF 53) by (change (53 - 1) with 52; lia).
  rewrite (fexp_normal (53 + ey - (53 + eF))) by lia.
  replace (Z.min (53 + ey - (53 + eF) - 53) (ey - eF)) with (ey - eF - 53) by lia.
  replace (ey - eF - (ey - eF - 53)) with 53 by lia.
  rewrite Z.shiftl_mul_pow2 by lia.
  set (N := Z.pos my * 2 ^ 53). set (D := Z.pos mF).
  assert (Z.div_eucl N D = (N / D, N mod D)) as ->.
  { unfold Z.div, Z.modulo. by destruct (Z.div_eucl N D). }
  assert (0 < D) as HD by (subst D; lia).
  assert (0 <= N) as HN by (subst N; lia).
  assert (2 ^ 52 <= N / D < 2 ^ 54) as Hq.
  { subst N D. split.
    - apply Z.div_le_lower_bound; [lia|].
      change (2 ^ 53) with (2 * 2 ^ 52) in *. nia.
    - apply Z.div_lt_upper_bound; [lia|].
      change (2 ^ 54) with (4 * 2 ^ 52). change (2 ^ 53) with (2 * 2 ^ 52) in *.
      nia. }
  destruct (N / D) as [|q|q] eqn:Eq; try lia.
  pose proof (new_location_ok N D HD HN) as Hrec. rewrite Eq in Hrec.
  pose proof (digits2_bounds q) as Hd.
  set (d := Z.pos (digits2_pos q)) in *.
  assert (d = 53 \/ d = 54) as Hd'.
  { destruct (Z.lt_ge_cases (Z.pos q) (2 ^ 53)) as [Hlt | Hge].
    - left. apply digits2_unique. change (53 - 1) with 52. lia.
    - right. apply digits2_unique. change (54 - 1) with 53. lia. }
  destruct (round_aux_normal false (Z.pos q) (ey - eF - 53)
              (new_location D (N mod D)) N D Hrec ltac:(lia))
    as (mz & ez & -> & Hmz & Hez & Herr);
    fold d; try (cbn [Zdigits2]; fold d; lia).
  cbn [Zdigits2] in Hez, Herr. fold d in Hez, Herr.
  exists mz, ez, (d - 53), (ez - (ey - eF - 53 + d - 53)).
  split; [reflexivity|]. split; [exact Hmz|].
  split; [lia|]. split; [lia|]. split; [lia|]. exact Herr.
Qed.

Ltac eval_pow2 :=
  repeat match goal with
         | |- context [2 ^ ?e] =>
             let v := eval vm_compute in (2 ^ e) in change (2 ^ e) with v
         | H : context [2 ^ ?e] |- _ =>
             let v := eval vm_compute in (2 ^ e) in change (2 ^ e) with v in H
         end.

(** Two normal floats whose exponents differ by [t] and whose significands
    agree up to 6 halves of a unit are within [1e-9], relatively. *)
Lemma within_rel_near (mz mx : positive) (ex t : Z) :
  -1 <= t <= 3 ->
  2 ^ 52 <= Z.pos mx ->
  -6 <= Z.pos mz * 2 ^ (t + 1) - 2 * Z.pos mx <= 6 ->
  sf_within_rel (S754_finite false mz (ex + t)) (S754_finite false mx ex) = true.
Proof.
  intros Ht Hx H. unfold sf_within_rel, aligned. cbn [finite_parts].
  apply Z.leb_le.
  assert (t = -1 \/ t = 0 \/ t = 1 \/ t = 2 \/ t = 3) as Hc by lia.
  destruct Hc as [-> | [-> | [-> | [-> | ->]]]].
  - replace (Z.min (ex + -1) ex) with (ex + -1) by lia.
    replace (ex + -1 - (ex + -1)) with 0 by lia.
    replace (ex - (ex + -1)) with 1 by lia.
    cbn [Z.add] in H. eval_pow2. lia.
  - replace (Z.min (ex + 0) ex) with ex by lia.
    replace (ex + 0 - ex) with 0 by lia. replace (ex - ex) with 0 by lia.
    cbn [Z.add] in H. eval_pow2. lia.
  - replace (Z.min (ex + 1) ex) with ex by lia.
    replace (ex + 1 - ex) with 1 by lia. replace (ex - ex) with 0 by lia.
    cbn [Z.add Pos.add] in H. eval_pow2. lia.
  - replace (Z.min (ex + 2) ex) with ex by lia.
    replace (ex + 2 - ex) with 2 by lia. replace (ex - ex) with 0 by lia.
    cbn [Z.add Pos.add Pos.succ] in H. eval_pow2. lia.
  - replace (Z.min (ex + 3) ex) with ex by lia.
    replace (ex + 3 - ex) with 3 by lia. replace (ex - ex) with 0 by lia.
    cbn [Z.add Pos.add Pos.succ] in H. eval_pow2. lia.
Qed.

(** Multiplying a normal float by a factor and dividing the product by
    the same factor gives the float back within a relative error of
    [1e-9]. *)
Lemma round_trip_SF (mx mF : positive) (ex eF : Z) :
  2 ^ 52 <= Z.pos mx < 2 ^ 53 -> 2 ^ 52 <= Z.pos mF < 2 ^ 53 ->
  -1052 <= ex <= 948 -> -69 <= eF <= -52 ->
  exists mz ez,
    SFdiv prec emax
      (SFmul prec emax (S754_finite false mx ex) (S754_finite false mF eF))
      (S754_finite false mF eF)
    = S754_finite false mz ez
    /\ sf_within_rel (S754_finite false mz ez) (S754_finite false mx ex) = true.
Proof.
  intros Hx HF Hex HeF.
  destruct (mul_normal mx mF ex eF Hx HF ltac:(lia) ltac:(lia))
    as (my & ey & n & k & -> & Hy & Hn & Hk & Hey & E1).
  destruct (div_normal my mF ey eF Hy HF ltac:(lia) ltac:(lia))
    as (mz & ez & n' & k' & -> & Hz & Hn' & Hk' & Hez & E2).
  exists mz, ez. split; [reflexivity|].
  replace ez with (ex + (n + k + n' + k' - 53)) by lia.
  apply within_rel_near; [lia | lia |].
  clear Hey Hez Hex HeF ey ez ex eF.
  destruct Hn as [-> | ->], Hk as [-> | ->], Hn' as [-> | ->], Hk' as [-> | ->];
    cbn [Z.add Z.sub Z.opp Z.pos_sub Pos.add Pos.succ Pos.pred_double
         Z.succ_double Z.pred_double Z.double Pos.add_carry];
    eval_pow2; nia.
Qed.

(** A float between [2^-1000] and [2^1000] is normal and positive. *)
Lemma range_normal (x : float) :
  in_round_trip_range x = true ->
  exists mx ex,
    Prim2SF x = S754_finite false mx ex
    /\ 2 ^ 52 <= Z.pos mx < 2 ^ 53 /\ -1052 <= ex <= 948.
Proof.
  unfold in_round_trip_range. rewrite andb_true_iff, !leb_spec.
  change (Prim2SF 0x1p-1000) with (S754_finite false 4503599627370496 (-1052)).
  change (Prim2SF 0x1p+1000) with (S754_finite false 4503599627370496 948).
  pose proof (Prim2SF_valid x) as Hv.
  destruct (Prim2SF x) as [s|s| |s m e]; intros [H1 H2].
  - discriminate.
  - destruct s; discriminate.
  - discriminate.
  - destruct s; [discriminate|].
    unfold SFleb, SFcompare in H1, H2.
    assert (-1052 <= e <= 948) as He.
    { destruct (Z.compare_spec (-1052) e); try discriminate;
        destruct (Z.compare_spec e 948); try discriminate; lia. }
    exists m, e. split; [reflexivity|]. split; [|exact He].
    cbn [valid_binary] in Hv. unfold bounded, canonical_mantissa in Hv.
    apply andb_true_iff in Hv as [Hc _]. apply Z.eqb_eq in Hc.
    unfold fexp, SpecFloat.emin, prec, emax in Hc.
    pose proof (digits2_bounds m) as Hd.
    assert (Z.pos (digits2_pos m) = 53) as E by lia. rewrite E in Hd.
    exact Hd.
Qed.

(** The four factors are normal floats between [2^-17] and 1. *)
Lemma factor_normal (u : Z) :
  in_range4 u = true ->
  exists i mF eF,
    UNIT_CONVERSIONS !! u = Some i
    /\ Prim2SF (factor i) = S754_finite false mF eF
    /\ 2 ^ 52 <= Z.pos mF < 2 ^ 53 /\ -69 <= eF <= -52.
Proof.
  unfold in_range4. intros H.
  assert (u = 0 \/ u = 1 \/ u = 2 \/ u = 3) as [-> | [-> | [-> | ->]]] by lia.
  - exists {| name := "mL/min"; factor := 1%float |}, 4503599627370496%positive, (-52).
    repeat split; try reflexivity; try lia; done.
  - exists {| name := "mL/hr"; factor := (1 / 60)%float |},
      4803839602528529%positive, (-58).
    repeat split; try reflexivity; try lia; done.
  - exists {| name := "μL/min"; factor := 0.001%float |},
      4611686018427388%positive, (-62).
    repeat split; try reflexivity; try lia; done.
  - exists {| name := "μL/hr"; factor := (0.001 / 60)%float |},
      4919131752989214%positive, (-68).
    repeat split; try reflexivity; try lia; done.
Qed.

(** C3, amended: for each of the four unit codes and every float [x] with
    [2^-1000 <= x <= 2^1000], converting [x] to base units and back returns
    a float within the relative tolerance [1e-9] of [x]. *)
Theorem C3_round_trip_relative (u : Z) (x : float) :
  in_range4 u = true ->
  in_round_trip_range x = true ->
  exists z, round_trip x u = Ok z /\ within_rel z x = true.
Proof.
  intros Hu Hx.
  destruct (range_normal x Hx) as (mx & ex & Ex & Hmx & Hex).
  destruct (factor_normal u Hu) as (i & mF & eF & Hi & EF & HmF & HeF).
  unfold round_trip, convert_to_base_units, convert_from_base_units, unit_entry.
  rewrite Hi. eexists. split; [reflexivity|].
  unfold within_rel. rewrite div_spec, mul_spec, Ex, EF.
  destruct (round_trip_SF mx mF ex eF Hmx HmF Hex HeF) as (mz & ez & E & H).
  unfold SF64div, SF64mul. by rewrite E.
Qed.

(** C3 at the rate of the rate example: 600 mL/hr. *)
Lemma C3_witness :
  exists z, round_trip 600 1 = Ok z /\ within_rel z 600 = true.
Proof. exact (C3_round_trip_relative 1 600 eq_refl eq_refl). Defined.

(** C3 as stated fails for each reading of the tolerance. Read as an
    absolute bound it fails at [31 * 2^30] mL/hr, where the round trip is off
    by [2^-18]; read as a relative bound it fails at the smallest positive
    float, which the round trip through uL/min turns into 0. Both inputs are
    finite and positive. *)
Lemma C3_counterexample :
  (is_finite 33285996544 = true /\ (0 <? 33285996544)%float = true
   /\ exists z, round_trip 33285996544 1 = Ok z
                /\ within_abs z 33285996544 = false)
  /\ (is_finite 0x1p-1074 = true /\ (0 <? 0x1p-1074)%float = true
      /\ round_trip 0x1p-1074 2 = Ok 0%float
      /\ within_rel 0 0x1p-1074 = false).
Proof.
  split.
  - split; [reflexivity|]. split; [reflexivity|].
    eexists. split; reflexivity.
  - repeat split; reflexivity.
Qed.

End Rounding.

(** * Further properties of the transaction engine *)

Section Port.

Lemma quiet_ret {A} (a : A) : quiet (io_ret a).
Proof. by intros s. Qed.

Lemma quiet_bind {A B} (m : io A) (k : A -> io B) :
  quiet m -> (forall a, quiet (k a)) -> quiet (io_bind m k).
Proof.
  intros Hm Hk s. unfold io_bind. destruct (Hm s) as (H1 & H2 & H3).
  destruct (m s) as [[a|e] s']; cbn [snd] in *; [|done].
  destruct (Hk a s') as (H4 & H5 & H6). by rewrite H4, H5, H6.
Qed.

Lemma quiet_guarded {A} (op : port_op) (body : io A) :
  quiet body -> quiet (guarded op body).
Proof.
  intros H s. unfold guarded. destruct (faults s op); [done|apply H].
Qed.

Lemma quiet_reset_input_buffer : quiet reset_input_buffer.
Proof. apply quiet_guarded. by intros s. Qed.

Lemma quiet_reset_output_buffer : quiet reset_output_buffer.
Proof. apply quiet_guarded. by intros s. Qed.

Lemma quiet_flush : quiet flush.
Proof. apply quiet_guarded. by intros s. Qed.

Lemma quiet_in_waiting : quiet in_waiting.
Proof. apply quiet_guarded. by intros s. Qed.

Lemma quiet_readline : quiet readline.
Proof.
  intros s. unfold readline.
  destruct (in_buffer s) as [|[raw|e] rest]; [|done..].
  by destruct (late_line s).
Qed.

Lemma quiet_drain (fuel : nat) : forall acc, quiet (drain fuel acc).
Proof.
  induction fuel as [|fuel IH]; intros acc; [apply quiet_ret|].
  cbn [drain]. apply quiet_bind; [apply quiet_in_waiting|]. intros n.
  destruct (n =? 0); [apply quiet_ret|].
  apply quiet_bind; [apply quiet_readline|]. intros raw.
  destruct (PyStr.truthy (PyStr.strip raw)); apply IH.
Qed.

Lemma quiet_drain_all : quiet drain_all.
Proof. intros s. unfold drain_all. apply quiet_drain. Qed.

Lemma quiet_read_once_more (responses : list string) :
  quiet (read_once_more responses).
Proof.
  destruct responses; [|apply quiet_ret].
  apply quiet_bind; [apply quiet_readline|]. intros raw. apply quiet_ret.
Qed.

(** What follows the write in a transaction. *)
Lemma quiet_listen (command : string) :
  quiet (flush ;;;
         responses <- drain_all ;;
         responses <- read_once_more responses ;;
         io_ret (answer (pick command responses))).
Proof.
  apply quiet_bind; [apply quiet_flush|]. intros _.
  apply quiet_bind; [apply quiet_drain_all|]. intros responses.
  apply quiet_bind; [apply quiet_read_once_more|]. intros r.
  apply quiet_ret.
Qed.

Lemma write_port (data : string) (s : Serial) :
  faults s OpWrite = None ->
  exists s', write data s = (Ok tt, s')
             /\ is_open s' = is_open s
             /\ wire s' = (wire s ++ [data])%list
             /\ faults s' = faults s.
Proof.
  intros H. unfold write. rewrite guarded_ok by done.
  destruct (script s); eexists; repeat split.
Qed.

(** The port after a transaction: as open as before, with the same faults,
    and with the framed command on the wire exactly when the port let it
    out. *)
Lemma exchange_port (command : string) (s : Serial) :
  is_open (snd (exchange command s)) = is_open s
  /\ wire (snd (exchange command s))
     = (wire s ++ (if lets_out s then [frame command] else []))%list
  /\ faults (snd (exchange command s)) = faults s.
Proof.
  unfold exchange, lets_out.
  destruct (faults s OpResetInput) as [c1|] eqn:H1.
  { erewrite io_bind_raise by (by apply guarded_fault).
    cbn [snd]. by rewrite app_nil_r. }
  erewrite io_bind_ok; [|unfold reset_input_buffer; by rewrite guarded_ok].
  set (s1 := with_in_buffer s []).
  destruct (faults s OpWrite) as [c2|] eqn:H2.
  { erewrite io_bind_raise by (by apply guarded_fault).
    cbn [snd]. by rewrite app_nil_r. }
  destruct (write_port (frame command) s1 H2) as (s2 & Hw & Ho & Hwire & Hf).
  erewrite io_bind_ok by exact Hw.
  destruct (quiet_listen (frame command) s2) as (Q1 & Q2 & Q3).
  rewrite Q1, Q2, Q3, Ho, Hwire, Hf. done.
Qed.

(** [send_command] and the port of the pump. *)
Lemma send_command_port (command : string) (p : ChemyxPump) :
  online (snd (send_command command p)) = online p
  /\ writable (snd (send_command command p)) = writable p
  /\ sent (snd (send_command command p)) = (sent p ++ appended command p)%list.
Proof.
  unfold send_command, online, writable, appended, writable, sent, lets_out.
  destruct (connection p) as [conn|] eqn:Hc; [|cbn [snd]; by rewrite Hc].
  destruct (is_open conn) eqn:Ho; cbn [negb].
  2:{ cbn [snd]. rewrite Hc, Ho. cbn. by rewrite app_nil_r. }
  destruct (exchange_port command conn) as (E1 & E2 & E3). unfold lets_out in E2.
  destruct (exchange command conn) as [[r|e] conn']; cbn [snd connection with_connection] in *;
    rewrite E1, E3, E2, Ho; cbn [andb]; done.
Qed.

Lemma send_command_online (command : string) (p : ChemyxPump) :
  online (snd (send_command command p)) = online p.
Proof. apply send_command_port. Qed.

Lemma send_command_writable (command : string) (p : ChemyxPump) :
  writable (snd (send_command command p)) = writable p.
Proof. apply send_command_port. Qed.

Lemma send_command_wire (command : string) (p : ChemyxPump) :
  sent (snd (send_command command p)) = (sent p ++ appended command p)%list.
Proof. apply send_command_port. Qed.

Lemma send_command_offline (command : string) (p : ChemyxPump) :
  online p = false ->
  send_command command p = ("Error: Not connected to pump", p).
Proof.
  unfold online, send_command. destruct (connection p) as [conn|]; [|done].
  by intros ->.
Qed.

(** ** The text of a framed command *)

Lemma rev_app_append (a b acc : string) :
  String.rev_app (a +:+ b) acc = String.rev_app b (String.rev_app a acc).
Proof.
  revert acc. induction a as [|x a IH]; intros acc; [reflexivity|].
  change (String x a +:+ b) with (String x (a +:+ b)). cbn [String.rev_app].
  apply IH.
Qed.

Lemma terminated_append_CR (s : string) : terminated (s +:+ PyStr.CR) = true.
Proof.
  unfold terminated, PyStr.endswith, String.rev. rewrite rev_app_append.
  by destruct (String.rev_app s EmptyString).
Qed.

Lemma frame_terminated (command : string) : terminated (frame command) = true.
Proof.
  unfold frame. destruct (PyStr.endswith command PyStr.CR) eqn:E; [exact E|].
  apply terminated_append_CR.
Qed.


(** ** The result of a transaction *)

Lemma pick_kept (command : string) (responses : list string) (r : string) :
  pick command responses = Some r -> keeps command r = true.
Proof.
  rewrite pick_last. intros H. apply last_Some in H as [l' H].
  assert (In r (List.filter (keeps command) responses)) as Hin.
  { rewrite H. apply in_or_app. right. by left. }
  by apply List.filter_In in Hin as [_ Hin].
Qed.

Lemma answer_shape (command : string) (responses : list string) :
  let r := answer (pick command responses) in
  r <> EmptyString /\ PyStr.startswith r ">" = false.
Proof.
  cbn zeta. unfold answer.
  destruct (pick command responses) as [r|] eqn:P; [|done].
  apply pick_kept in P. unfold keeps in P. apply andb_true_iff in P as [P _].
  apply negb_true_iff in P. unfold PyStr.truthy.
  by destruct r.
Qed.

Lemma exchange_answer (command : string) (s s' : Serial) (r : string) :
  exchange command s = (Ok r, s') ->
  exists responses, r = answer (pick (frame command) responses).
Proof.
  unfold exchange, io_bind.
  destruct (reset_input_buffer s) as [[[]|e] s1]; [|discriminate].
  destruct (write (frame command) s1) as [[[]|e] s2]; [|discriminate].
  destruct (flush s2) as [[[]|e] s3]; [|discriminate].
  destruct (drain_all s3) as [[rs|e] s4]; [|discriminate].
  destruct (read_once_more rs s4) as [[rs'|e] s5]; [|discriminate].
  unfold io_ret. intros [= <- _]. by exists rs'.
Qed.


Lemma send_command_pending (command : string) (p : ChemyxPump)
    (stale : list rx_item) :
  fst (send_command command (with_pending p stale))
  = fst (send_command command p).
Proof.
  unfold with_pending, send_command.
  destruct (connection p) as [conn|] eqn:Hc; [|by rewrite Hc].
  cbn [connection with_connection is_open with_in_buffer].
  destruct (negb (is_open conn)); [done|].
  unfold exchange. unfold io_bind at 1 6. unfold reset_input_buffer, guarded.
  cbn [faults with_in_buffer].
  destruct (faults conn OpResetInput); [done|].
  unfold with_in_buffer. cbn [is_open wire late_line script faults].
  by destruct (io_bind _ _ _) as [[r|e] conn'].
Qed.


End Port.

(** * The methods and the port *)

Section Calls.

Lemma grows_same (n : nat) (p p' : ChemyxPump) :
  sent p' = sent p -> grows n p p'.
Proof.
  intros H. exists []. rewrite app_nil_r. split; [exact H|].
  split; [constructor | cbn; lia].
Qed.

Lemma grows_send (n : nat) (command : string) (p : ChemyxPump) :
  grows (S n) p (snd (send_command command p)).
Proof.
  exists (appended command p). split; [apply send_command_wire|].
  unfold appended. destruct (writable p); cbn.
  - split; [|lia]. repeat constructor. apply frame_terminated.
  - split; [constructor | lia].
Qed.

Lemma grows_trans (n m : nat) (p p' p'' : ChemyxPump) :
  grows n p p' -> grows m p' p'' -> grows (n + m) p p''.
Proof.
  intros (l1 & E1 & F1 & L1) (l2 & E2 & F2 & L2). exists (l1 ++ l2)%list.
  split; [by rewrite E2, E1, <- app_assoc|].
  split; [by apply Forall_app|]. rewrite length_app. lia.
Qed.

Lemma store_limits_connection (parts : list string) (p : ChemyxPump) :
  connection (snd (store_limits parts p)) = connection p.
Proof.
  unfold store_limits, order_rates, order_volumes.
  destruct (4 <=? length parts)%nat; [|reflexivity].
  repeat (match goal with
          | |- context [match float_at ?l ?i with _ => _ end] =>
              destruct (float_at l i)
          end; cbn; [|reflexivity]).
  repeat (match goal with
          | |- context [if ?b then _ else _] => destruct b; cbn
          end).
  all: reflexivity.
Qed.

Lemma store_limits_sent (parts : list string) (p : ChemyxPump) :
  sent (snd (store_limits parts p)) = sent p.
Proof. unfold sent. by rewrite store_limits_connection. Qed.

Lemma store_limits_writable (parts : list string) (p : ChemyxPump) :
  writable (snd (store_limits parts p)) = writable p.
Proof. unfold writable. by rewrite store_limits_connection. Qed.

Lemma store_limits_online (parts : list string) (p : ChemyxPump) :
  online (snd (store_limits parts p)) = online p.
Proof. unfold online. by rewrite store_limits_connection. Qed.

(** [parse_limits] and the port: one command goes out. *)
Lemma parse_limits_port (p : ChemyxPump) :
  online (snd (parse_limits p)) = online p
  /\ writable (snd (parse_limits p)) = writable p
  /\ sent (snd (parse_limits p))
     = (sent p ++ appended "read limit parameter" p)%list.
Proof.
  unfold parse_limits, get_limits.
  destruct (send_command_port "read limit parameter" p) as (H1 & H2 & H3).
  destruct (send_command _ p) as [r p1]. cbn [snd] in *.
  by rewrite store_limits_online, store_limits_writable, store_limits_sent.
Qed.

Lemma grows_set_rate (n : nat) (rate : float) (p : ChemyxPump) :
  grows (S n) p (snd (set_rate rate p)).
Proof.
  unfold set_rate.
  destruct (convert_to_base_units rate (current_units p)) as [b|e].
  - destruct (rate_refusal rate b p) as [[m|]|e].
    + by apply grows_same.
    + pose proof (grows_send n ("set rate " +:+ PyFloat.format_4f rate) p) as H.
      by destruct (send_command _ p).
    + destruct (is_ValueError e); by apply grows_same.
  - destruct (is_ValueError e); by apply grows_same.
Qed.

Lemma grows_set_volume (n : nat) (volume : float) (mode : string)
    (p : ChemyxPump) :
  grows (S n) p (snd (set_volume volume mode p)).
Proof.
  unfold set_volume.
  destruct (min_volume p); [destruct (max_volume p)|]; try apply grows_send.
  destruct (_ || _); [by apply grows_same | apply grows_send].
Qed.

Lemma grows_set_units (n : nat) (unit_code : Z) (p : ChemyxPump) :
  grows (S n) p (snd (set_units unit_code p)).
Proof.
  unfold set_units. destruct (negb (in_range4 unit_code)); [by apply grows_same|].
  pose proof (grows_send n ("set units " +:+ int_str unit_code) p) as H.
  destruct (send_command _ p) as [r p']. cbn [snd] in H.
  by destruct (negb (PyStr.startswith r "Error")).
Qed.

Lemma grows_view_parameter (param : string) (p : ChemyxPump) :
  grows 2 p (snd (view_parameter param p)).
Proof.
  unfold view_parameter.
  pose proof (grows_send 0 ("read " +:+ param) p) as H.
  destruct (send_command _ p) as [r p1]. cbn [snd] in H.
  destruct (contains _ _).
  - exact (grows_trans 1 1 _ _ _ H (grows_send 0 _ p1)).
  - destruct H as (new & E & F & L). exists new. repeat split; [done..|lia].
Qed.

Lemma grows_parse_limits (n : nat) (p : ChemyxPump) :
  grows (S n) p (snd (parse_limits p)).
Proof.
  unfold parse_limits, get_limits.
  pose proof (grows_send n "read limit parameter" p) as H.
  destruct (send_command _ p) as [r p1]. cbn [snd] in H.
  destruct H as (new & E & F & L). exists new.
  by rewrite store_limits_sent.
Qed.

(** [clear_communication] and the port. *)
Lemma clear_communication_port (p : ChemyxPump) :
  online (clear_communication p) = online p
  /\ writable (clear_communication p) = writable p
  /\ sent (clear_communication p) = sent p.
Proof.
  unfold clear_communication, online, writable, sent, lets_out.
  destruct (connection p) as [conn|] eqn:Hc; [|by rewrite Hc].
  destruct (negb (is_open conn)); [by rewrite Hc|].
  assert (quiet (reset_input_buffer ;;; reset_output_buffer)) as Q.
  { apply quiet_bind; [apply quiet_reset_input_buffer|]. intros _.
    apply quiet_reset_output_buffer. }
  destruct (Q conn) as (Q1 & Q2 & Q3).
  destruct ((reset_input_buffer;;; reset_output_buffer) conn) as [r conn'].
  cbn [snd connection with_connection] in *. by rewrite Q1, Q2, Q3.
Qed.

Lemma disconnect_sent (p : ChemyxPump) : sent (disconnect p) = sent p.
Proof.
  unfold disconnect, sent. destruct (connection p) as [conn|] eqn:Hc;
    [|by rewrite Hc].
  destruct (is_open conn); [reflexivity | by rewrite Hc].
Qed.

Lemma sent_with_connection (p : ChemyxPump) (conn : Serial) :
  sent (with_connection p (Some conn)) = wire conn.
Proof. reflexivity. Qed.

(** [connect] on the port that opening gave. *)
Lemma connect_port (conn : Serial) (p : ChemyxPump) :
  fst (connect (Ok conn) p) = is_open conn
  /\ online (snd (connect (Ok conn) p)) = is_open conn
  /\ sent (snd (connect (Ok conn) p))
     = (wire conn
        ++ (if is_open conn && lets_out conn
            then [frame "status"; frame "read limit parameter"] else []))%list.
Proof.
  unfold connect.
  destruct (clear_communication_port (with_connection p (Some conn)))
    as (C1 & C2 & C3).
  change (online (with_connection p (Some conn))) with (is_open conn) in C1.
  change (writable (with_connection p (Some conn)))
    with (is_open conn && lets_out conn) in C2.
  change (sent (with_connection p (Some conn))) with (wire conn) in C3.
  set (p0 := clear_communication _) in *.
  unfold online in C1 at 1.
  destruct (connection p0) as [conn'|] eqn:Hc.
  2:{ cbn [fst snd]. rewrite <- C1 in *. cbn [andb] in *.
      unfold online. rewrite Hc, C3. by rewrite app_nil_r. }
  destruct (is_open conn') eqn:Ho.
  2:{ cbn [fst snd]. rewrite <- C1 in *. cbn [andb] in *.
      unfold online. rewrite Hc, Ho, C3. by rewrite app_nil_r. }
  destruct (send_command_port "status" p0) as (S1 & S2 & S3).
  destruct (send_command "status" p0) as [r p1]. cbn [snd] in *.
  destruct (parse_limits_port p1) as (P1 & P2 & P3).
  destruct (parse_limits p1) as [b p2]. cbn [fst snd] in *.
  split; [exact C1|]. split.
  - rewrite P1, S1. unfold online. by rewrite Hc, Ho.
  - rewrite P3, S3, C3. unfold appended. rewrite S2, C2, <- C1. cbn [andb].
    rewrite <- app_assoc. by destruct (lets_out conn).
Qed.

Lemma grows_connect (opened : result Serial) (p : ChemyxPump) :
  grows 2 (entering (Connect opened) p) (snd (connect opened p)).
Proof.
  destruct opened as [conn|e]; [|by apply grows_same].
  destruct (connect_port conn p) as (_ & _ & H). cbn [entering].
  eexists. split; [exact H|].
  destruct (is_open conn && lets_out conn); cbn.
  - split; [|lia]. repeat constructor; apply frame_terminated.
  - split; [constructor | lia].
Qed.


(** ** Without an open connection *)

Lemma store_limits_first (parts : list string) (p : ChemyxPump) :
  float_at parts 0 = None -> store_limits parts p = (false, p).
Proof.
  intros H. unfold store_limits. rewrite H. by destruct (4 <=? length parts)%nat.
Qed.

Lemma parse_limits_offline (p : ChemyxPump) :
  online p = false -> parse_limits p = (false, p).
Proof.
  intros H. unfold parse_limits, get_limits.
  rewrite send_command_offline by done.
  apply store_limits_first. vm_compute. reflexivity.
Qed.

Lemma set_rate_offline (rate : float) (p : ChemyxPump) :
  online p = false -> snd (set_rate rate p) = p.
Proof.
  intros H. unfold set_rate.
  destruct (convert_to_base_units rate (current_units p)) as [b|e].
  - destruct (rate_refusal rate b p) as [[m|]|e].
    + reflexivity.
    + by rewrite send_command_offline.
    + by destruct (is_ValueError e).
  - by destruct (is_ValueError e).
Qed.

Lemma set_volume_offline (volume : float) (mode : string) (p : ChemyxPump) :
  online p = false -> snd (set_volume volume mode p) = p.
Proof.
  intros H. unfold set_volume. rewrite !send_command_offline by done.
  destruct (min_volume p); [destruct (max_volume p)|]; try reflexivity.
  by destruct (_ || _).
Qed.

Lemma disconnect_offline (p : ChemyxPump) : online (disconnect p) = false.
Proof.
  unfold disconnect, online. destruct (connection p) as [conn|] eqn:Hc;
    [|by rewrite Hc].
  destruct (is_open conn) eqn:Ho; [reflexivity | by rewrite Hc].
Qed.

Lemma run_offline (c : call) (p : ChemyxPump) :
  online p = false -> is_connect c = false -> run c p = p.
Proof.
  intros H Hc. destruct c; try discriminate; cbn [run];
    unfold set_diameter, start, stop, get_status, set_all_parameters,
      set_time, set_delay, set_prime_rate, pause, get_limits,
      get_dispensed_volume, get_elapsed_time, restart;
    rewrite ?send_command_offline by done; try reflexivity.
  - unfold disconnect. unfold online in H.
    destruct (connection p) as [conn|]; [|done]. by rewrite H.
  - by apply set_rate_offline.
  - by apply set_volume_offline.
  - unfold set_units. rewrite send_command_offline by done.
    by destruct (negb (in_range4 unit_code)).
  - unfold clear_communication. unfold online in H.
    destruct (connection p) as [conn|]; [|done]. by rewrite H.
  - unfold view_parameter. by rewrite send_command_offline.
  - by rewrite parse_limits_offline.
Qed.





(** ** Connecting *)


(** ** [view_parameter] and [clear_communication] *)


Lemma clear_communication_pending (p : ChemyxPump) :
  clear_communication p = p \/ clear_communication p = with_pending p [].
Proof.
  unfold clear_communication, with_pending.
  destruct p as [po ba [conn|] a b c d u]; [|by left].
  cbn [connection with_connection port baudrate min_rate max_rate min_volume
       max_volume current_units].
  destruct (negb (is_open conn)); [by left|].
  unfold io_bind, reset_input_buffer, reset_output_buffer, guarded.
  destruct (faults conn OpResetInput) eqn:H1.
  - by left.
  - right. cbn [faults with_in_buffer].
    by destruct (faults conn OpResetOutput).
Qed.



End Calls.

(** * Limits and comparisons *)

Section Bounds.

(** Comparing the other way round gives the opposite answer. *)
Lemma SFcompare_swap (a b : spec_float) :
  SFcompare b a = option_map CompOpp (SFcompare a b).
Proof.
  destruct a as [sa|sa| |sa ma ea], b as [sb|sb| |sb mb eb]; cbn;
    try reflexivity; try (by destruct sa); try (by destruct sb);
    try (by destruct sa, sb).
  assert (Pos.compare_cont Eq mb ma = CompOpp (Pos.compare_cont Eq ma mb)) as C
    by (symmetry; exact (Pos.compare_cont_antisym ma mb Eq)).
  destruct sa, sb; try reflexivity; cbn; rewrite (Z.compare_antisym ea eb);
    destruct (ea ?= eb); cbn; try reflexivity;
    rewrite C; by destruct (Pos.compare_cont Eq ma mb).
Qed.

Lemma SFcompare_None (a b : spec_float) :
  SFcompare a b = None ->
  a = S754_nan \/ b = S754_nan.
Proof.
  destruct a as [sa|sa| |sa ma ea], b as [sb|sb| |sb mb eb]; cbn;
    try discriminate; auto.
Qed.

Lemma ltb_asym (a b : float) : (a <? b)%float = true -> (b <? a)%float = false.
Proof.
  rewrite !ltb_spec. unfold SFltb. rewrite (SFcompare_swap (Prim2SF a)).
  by destruct (SFcompare (Prim2SF a) (Prim2SF b)) as [[]|].
Qed.

Lemma leb_not_ltb (a b : float) :
  (a <=? b)%float = true -> (b <? a)%float = false.
Proof.
  rewrite leb_spec, ltb_spec. unfold SFleb, SFltb.
  rewrite (SFcompare_swap (Prim2SF a)).
  by destruct (SFcompare (Prim2SF a) (Prim2SF b)) as [[]|].
Qed.

Lemma ltb_leb (a b : float) : (a <? b)%float = true -> (a <=? b)%float = true.
Proof.
  rewrite leb_spec, ltb_spec. unfold SFleb, SFltb.
  by destruct (SFcompare (Prim2SF a) (Prim2SF b)) as [[]|].
Qed.

Lemma not_ltb_leb (a b : float) :
  is_nan a = false -> is_nan b = false ->
  (a <? b)%float = false -> (b <=? a)%float = true.
Proof.
  unfold is_nan. rewrite leb_spec, ltb_spec. unfold SFleb, SFltb.
  rewrite (SFcompare_swap (Prim2SF a)). intros Ha Hb.
  destruct (SFcompare (Prim2SF a) (Prim2SF b)) as [[]|] eqn:E; try done.
  apply SFcompare_None in E as [E | E]; rewrite E in *; discriminate.
Qed.

(** A pair of limits after the swap of lines 405-408. *)
Lemma swapped_pair_ordered (v0 v1 : float) :
  let lo := if (v0 <? v1)%float then v0 else v1 in
  let hi := if (v0 <? v1)%float then v1 else v0 in
  (hi <? lo)%float = false
  /\ (is_nan lo = false -> is_nan hi = false -> (lo <=? hi)%float = true).
Proof.
  cbn zeta. destruct (v0 <? v1)%float eqn:E.
  - split; [by apply ltb_asym|]. intros _ _. by apply ltb_leb.
  - split; [exact E|]. intros H1 H0. by apply not_ltb_leb.
Qed.

Lemma parse_limits_store (p : ChemyxPump) :
  parse_limits p
  = store_limits (PyStr.split (fst (get_limits p))) (snd (get_limits p)).
Proof.
  unfold parse_limits. by destruct (get_limits p).
Qed.

Lemma get_limits_limits (p : ChemyxPump) :
  limits (snd (get_limits p)) = limits p.
Proof.
  unfold limits, get_limits.
  by destruct (send_command_frame "read limit parameter" p)
    as (-> & -> & -> & -> & _).
Qed.





Lemma split_command_failed (cause : string) :
  float_at (PyStr.split ("Command failed: " +:+ cause)) 0 = None.
Proof.
  unfold float_at, PyStr.split. cbn [String.append PyStr.split_go].
  vm_compute. reflexivity.
Qed.






(** ** A unit outside the table *)

Lemma table_undefined (u : Z) :
  in_range4 u = false -> UNIT_CONVERSIONS !! u = None.
Proof.
  unfold in_range4, UNIT_CONVERSIONS. intros H.
  rewrite !lookup_insert_ne by lia. apply lookup_singleton_ne. lia.
Qed.



End Bounds.

(** * Loading a list of commands *)

Section Loading.

(** What [send_command] keeps of the pump. *)
Lemma send_command_keeps (command : string) (p : ChemyxPump) :
  current_units (snd (send_command command p)) = current_units p
  /\ limits (snd (send_command command p)) = limits p
  /\ online (snd (send_command command p)) = online p
  /\ grows 1 p (snd (send_command command p)).
Proof.
  destruct (send_command_frame command p) as (A & B & C & D & E).
  cbn zeta in *. unfold limits. rewrite A, B, C, D.
  split; [exact E|]. split; [reflexivity|].
  split; [apply send_command_online | apply grows_send].
Qed.

Lemma set_rate_keeps (rate : float) (p : ChemyxPump) :
  current_units (snd (set_rate rate p)) = current_units p
  /\ limits (snd (set_rate rate p)) = limits p
  /\ online (snd (set_rate rate p)) = online p
  /\ grows 1 p (snd (set_rate rate p)).
Proof.
  assert (current_units p = current_units p /\ limits p = limits p
          /\ online p = online p /\ grows 1 p p) as Same
    by (repeat split; by apply grows_same).
  unfold set_rate.
  destruct (convert_to_base_units rate (current_units p)) as [b|e].
  - destruct (rate_refusal rate b p) as [[m|]|e].
    + exact Same.
    + pose proof (send_command_keeps ("set rate " +:+ PyFloat.format_4f rate) p)
        as H.
      by destruct (send_command _ p).
    + by destruct (is_ValueError e).
  - by destruct (is_ValueError e).
Qed.

Lemma set_volume_keeps (volume : float) (mode : string) (p : ChemyxPump) :
  current_units (snd (set_volume volume mode p)) = current_units p
  /\ limits (snd (set_volume volume mode p)) = limits p
  /\ online (snd (set_volume volume mode p)) = online p
  /\ grows 1 p (snd (set_volume volume mode p)).
Proof.
  unfold set_volume.
  destruct (min_volume p); [destruct (max_volume p)|];
    try apply send_command_keeps.
  destruct (_ || _); [|apply send_command_keeps].
  repeat split; by apply grows_same.
Qed.

(** One line of the list: the unit, the limits and the state of the
    connection stay, and at most one command goes out. *)
Lemma load_command_keeps (cmd : string) (p : ChemyxPump) :
  current_units (snd (load_command cmd p)) = current_units p
  /\ limits (snd (load_command cmd p)) = limits p
  /\ online (snd (load_command cmd p)) = online p
  /\ grows 1 p (snd (load_command cmd p)).
Proof.
  assert (current_units p = current_units p /\ limits p = limits p
          /\ online p = online p /\ grows 1 p p) as Same
    by (repeat split; by apply grows_same).
  unfold load_command.
  destruct (PyStr.split cmd) as [|word rest]; [exact Same|].
  destruct (load_value rest) as [value|e]; [|exact Same].
  unfold load_apply, set_diameter, set_delay, set_prime_rate, start.
  repeat (match goal with
          | |- context [if String.eqb ?a ?b then _ else _] =>
              destruct (String.eqb a b)
          end);
    try exact Same.
  - destruct value as [v|];
      match goal with
      | |- context [send_command ?c p] =>
          pose proof (send_command_keeps c p) as H;
          by destruct (send_command c p)
      end.
  - destruct value as [v|]; [|exact Same].
    pose proof (set_volume_keeps (abs v)
                  (if (v <? 0)%float then "withdrawal" else "infusion") p) as H.
    by destruct (set_volume _ _ p).
  - destruct value as [v|].
    + pose proof (set_rate_keeps v p) as H.
      by destruct (set_rate v p) as [[r|e] p'].
    + by destruct (unit_entry (current_units p)).
  - destruct value as [v|];
      match goal with
      | |- context [send_command ?c p] =>
          pose proof (send_command_keeps c p) as H;
          by destruct (send_command c p)
      end.
  - destruct value as [v|];
      match goal with
      | |- context [send_command ?c p] =>
          pose proof (send_command_keeps c p) as H;
          by destruct (send_command c p)
      end.
  - pose proof (send_command_keeps "start" p) as H.
    by destruct (send_command "start" p).
Qed.

(** A line that ends the loop has changed nothing. *)
Lemma load_command_aborted (cmd : string) (p p' : ChemyxPump)
    (e : load_error) :
  load_command cmd p = (Aborted e, p') -> p' = p.
Proof.
  unfold load_command.
  destruct (PyStr.split cmd) as [|word rest]; [by intros [= _ <-]|].
  destruct (load_value rest) as [value|e']; [|by intros [= _ <-]].
  unfold load_apply, set_diameter, set_delay, set_prime_rate, start.
  repeat (match goal with
          | |- context [if String.eqb ?a ?b then _ else _] =>
              destruct (String.eqb a b)
          end);
    try discriminate.
  - destruct value as [v|]; by destruct (send_command _ p).
  - destruct value as [v|]; [|by intros [= _ <-]].
    by destruct (set_volume _ _ p).
  - destruct value as [v|].
    + unfold set_rate.
      destruct (convert_to_base_units v (current_units p)) as [b|e0].
      * destruct (rate_refusal v b p) as [[m|]|e0]; try discriminate.
        -- by destruct (send_command _ p).
        -- destruct (is_ValueError e0); [discriminate | by intros [= _ <-]].
      * destruct (is_ValueError e0); [discriminate | by intros [= _ <-]].
    + destruct (unit_entry (current_units p)); by intros [= _ <-].
  - destruct value as [v|]; by destruct (send_command _ p).
  - destruct value as [v|]; by destruct (send_command _ p).
  - by destruct (send_command _ p).
Qed.

Lemma load_commands_app (a b : list string) (responses : list string)
    (p : ChemyxPump) :
  load_commands (a ++ b) responses p
  = match load_commands a responses p with
    | (Loaded responses', p') => load_commands b responses' p'
    | (Aborted e, p') => (Aborted e, p')
    end.
Proof.
  revert responses p. induction a as [|cmd a IH]; intros responses p;
    [reflexivity|].
  cbn [app load_commands].
  destruct (load_command cmd p) as [[[r|]|e] p']; [apply IH..|reflexivity].
Qed.




(** The sign that the loop takes off a volume is the sign that
    [set_volume] puts back, except for the negative zero. *)
Lemma load_volume_sign (v : float) :
  Prim2SF v <> S754_zero true ->
  signed_volume (abs v) (if (v <? 0)%float then "withdrawal" else "infusion")
  = v.
Proof.
  intros Hz. apply Prim2SF_inj.
  rewrite signed_volume_SF, abs_spec, ltb_spec.
  change (Prim2SF 0) with (S754_zero false).
  destruct (Prim2SF v) as [[]|[]| |[] m e]; try reflexivity. done.
Qed.

Lemma set_volume_signed (volume : float) (mode : string) (p : ChemyxPump) :
  set_volume volume mode p
  = match min_volume p, max_volume p with
    | Some lo, Some hi =>
        if outside (abs volume) lo hi
        then (volume_message (signed_volume volume mode) lo hi, p)
        else send_command
               ("set volume " +:+ PyFloat.format_4f (signed_volume volume mode))
               p
    | _, _ =>
        send_command
          ("set volume " +:+ PyFloat.format_4f (signed_volume volume mode)) p
    end.
Proof.
  unfold set_volume.
  change (if String.eqb mode "withdrawal" then (- abs volume)%float
          else abs volume) with (signed_volume volume mode).
  by rewrite abs_signed_volume.
Qed.





End Loading.
